(** * DeepSeek distributed inference API: a shallow embedding

    This development embeds the request handlers of [api/main.py] and the
    configuration object of [api/config/settings.py] and proves the
    properties the specification states about them.

    Conventions of the embedding:
    - a Python [str] is a [string] of its UTF-8 bytes, a Python [int] is a
      [Z], a Python [float] is a binary64 [float] (so that [nan] and the
      comparisons behave as in Python);
    - a Python exception is a value of [exn]; a computation that may raise
      returns a [result];
    - module-level objects that the handlers mutate (the Prometheus
      metrics, the logger) and the calls they make into their collaborators
      (vLLM, the tokenizer, the clock) are threaded through a [World];
    - the module globals set once at start-up ([settings], [llm_engine],
      [tokenizer], [cluster_manager]) are a record [Globals]. *)

From Stdlib Require Import ZArith String Ascii List Bool Floats Lia.
From stdpp Require Import gmap strings list sorting pretty.

Set Warnings "-inexact-float,-register-all,-clear-no-such-hyp".
Local Open Scope Z_scope.

(** ** Strings *)

(** The line feed and the double quote, which a literal cannot hold. *)
Definition nl : string := String "010"%char EmptyString.
Definition dquote : string := String "034"%char EmptyString.

(** [''.join(parts)] *)
Definition str_join (parts : list string) : string :=
  fold_right String.append "" parts.

(** [s.endswith(suffix)], as a proposition. *)
Definition endswith (s suffix : string) : Prop :=
  exists front : string, s = front +:+ suffix.

(** ** Exceptions and results *)

(** The exception classes the modelled code raises or lets through.
    [RuntimeError] stands for whatever a collaborator raises (vLLM raises
    subclasses of it when the engine dies); [CancelledError] is asyncio's
    cancellation, which derives from [BaseException] and is therefore
    not caught by [except Exception]. *)
Inductive exn : Type :=
| HTTPException (status_code : Z) (detail : string)
| ValueError (msg : string)
| IndexError (msg : string)
| AttributeError (msg : string)
| OverflowError (msg : string)
| OSError (msg : string)
| RuntimeError (msg : string)
| CancelledError.

(** [isinstance(e, Exception)] *)
Definition is_Exception (e : exn) : bool :=
  match e with
  | CancelledError => false
  | _ => true
  end.

Inductive result (A : Type) : Type :=
| Ok (a : A)
| Raise (e : exn).
Arguments Ok {A} a.
Arguments Raise {A} e.

(** ** Chat messages and the prompt format ([main.py], [format_messages]) *)

Record ChatMessage : Type := {
  role : string;
  content : string
}.

(** One iteration of the loop of [format_messages]: the accumulator
    [formatted] after the message [msg]. *)
Definition format_step (formatted : string) (msg : ChatMessage) : string :=
  if String.eqb (role msg) "system" then
    formatted +:+ ("System: " +:+ content msg +:+ nl)
  else if String.eqb (role msg) "user" then
    formatted +:+ ("User: " +:+ content msg +:+ nl)
  else if String.eqb (role msg) "assistant" then
    formatted +:+ ("Assistant: " +:+ content msg +:+ nl)
  else formatted.

Definition format_messages (messages : list ChatMessage) : string :=
  let formatted := fold_left format_step messages "" in
  formatted +:+ "Assistant: ".

(** The description of the prompt in the specification: every message
    contributes one line, or nothing when its role is not one of the
    three known ones. *)
Definition message_line (msg : ChatMessage) : string :=
  if String.eqb (role msg) "system" then "System: " +:+ content msg +:+ nl
  else if String.eqb (role msg) "user" then "User: " +:+ content msg +:+ nl
  else if String.eqb (role msg) "assistant" then "Assistant: " +:+ content msg +:+ nl
  else "".

Definition format_messages_spec (messages : list ChatMessage) : string :=
  str_join (map message_line messages) +:+ "Assistant: ".

(** ** Configuration ([config/settings.py]) *)

(** The fields of [Settings], with the types of their annotations. *)
Record Settings : Type := {
  (* basics *)
  app_name : string;
  version : string;
  debug : bool;
  log_level : string;
  (* service *)
  host : string;
  port : Z;
  workers : Z;
  (* node *)
  node_id : string;
  node_type : string;
  node_role : string;
  start_time : float;
  (* model *)
  model_name : string;
  model_path : string;
  model_dtype : string;
  max_model_len : Z;
  (* vLLM *)
  tensor_parallel_size : Z;
  pipeline_parallel_size : Z;
  gpu_memory_utilization : float;
  quantization : option string;
  max_num_seqs : Z;
  max_num_batched_tokens : Z;
  (* inference *)
  default_temperature : float;
  default_top_p : float;
  default_max_tokens : Z;
  default_stop_sequences : list string;
  (* cluster *)
  cluster_enabled : bool;
  master_node : option string;
  cluster_discovery_method : string;
  heartbeat_interval : Z;
  (* Kubernetes *)
  k8s_namespace : string;
  k8s_service_name : string;
  k8s_pod_name : string;
  (* object storage *)
  hw_access_key : option string;
  hw_secret_key : option string;
  hw_region : string;
  obs_bucket : string;
  obs_endpoint : string;
  (* storage *)
  model_cache_dir : string;
  log_dir : string;
  temp_dir : string;
  (* monitoring *)
  metrics_enabled : bool;
  metrics_port : Z;
  jaeger_enabled : bool;
  jaeger_endpoint : option string;
  (* security *)
  api_key : option string;
  jwt_secret : option string;
  cors_origins : list string;
  rate_limit_enabled : bool;
  rate_limit_requests : Z;
  rate_limit_window : Z;
  (* performance *)
  max_concurrent_requests : Z;
  request_timeout : Z;
  keep_alive_timeout : Z;
  (* health checks *)
  health_check_enabled : bool;
  health_check_interval : Z;
  health_check_timeout : Z;
  (* load balancing *)
  load_balance_strategy : string;
  sticky_sessions : bool;
  circuit_breaker_enabled : bool;
  circuit_breaker_threshold : Z
}.

(** The field values when nothing overrides a default. Three defaults come
    from factories ([uuid.uuid4], [time.time], the HOSTNAME variable) and
    are arguments here. *)
Definition Settings_defaults
  (uuid4 : string) (now : float) (hostname : string) : Settings := {|
  app_name := "deepseek-api";
  version := "1.0.0";
  debug := false;
  log_level := "INFO";
  host := "0.0.0.0";
  port := 8000;
  workers := 1;
  node_id := uuid4;
  node_type := "worker";
  node_role := "inference";
  start_time := now;
  model_name := "deepseek-coder";
  model_path := "/data/models/deepseek-coder-6.7b-instruct";
  model_dtype := "auto";
  max_model_len := 4096;
  tensor_parallel_size := 1;
  pipeline_parallel_size := 1;
  gpu_memory_utilization := 0.85%float;
  quantization := None;
  max_num_seqs := 256;
  max_num_batched_tokens := 8192;
  default_temperature := 0.7%float;
  default_top_p := 0.9%float;
  default_max_tokens := 2048;
  default_stop_sequences := [];
  cluster_enabled := true;
  master_node := None;
  cluster_discovery_method := "kubernetes";
  heartbeat_interval := 30;
  k8s_namespace := "default";
  k8s_service_name := "deepseek-service";
  k8s_pod_name := hostname;
  hw_access_key := None;
  hw_secret_key := None;
  hw_region := "cn-north-4";
  obs_bucket := "deepseek-models";
  obs_endpoint := "obs.cn-north-4.myhuaweicloud.com";
  model_cache_dir := "/data/cache";
  log_dir := "/data/logs";
  temp_dir := "/tmp";
  metrics_enabled := true;
  metrics_port := 9090;
  jaeger_enabled := false;
  jaeger_endpoint := None;
  api_key := None;
  jwt_secret := None;
  cors_origins := ["*"];
  rate_limit_enabled := true;
  rate_limit_requests := 100;
  rate_limit_window := 60;
  max_concurrent_requests := 100;
  request_timeout := 300;
  keep_alive_timeout := 5;
  health_check_enabled := true;
  health_check_interval := 30;
  health_check_timeout := 10;
  load_balance_strategy := "round_robin";
  sticky_sessions := false;
  circuit_breaker_enabled := true;
  circuit_breaker_threshold := 5
|}.

(** Truth value of an [Optional[str]]: [None] and the empty string are
    false. *)
Definition truthy_opt_str (o : option string) : bool :=
  match o with
  | None => false
  | Some s => negb (String.eqb s "")
  end.

(** [os.path.dirname] of posixpath: everything up to the last slash, with
    the trailing slashes of that head removed unless it consists of
    slashes only. Computed on the reversed list of characters. *)
Fixpoint drop_until_slash (l : list ascii) : list ascii :=
  match l with
  | [] => []
  | c :: l' => if Ascii.eqb c "/" then l else drop_until_slash l'
  end.

Fixpoint drop_slashes (l : list ascii) : list ascii :=
  match l with
  | [] => []
  | c :: l' => if Ascii.eqb c "/" then drop_slashes l' else l
  end.

Definition dirname (p : string) : string :=
  let head := drop_until_slash (rev (list_ascii_of_string p)) in
  let stripped := drop_slashes head in
  string_of_list_ascii (rev (match stripped with [] => head | _ => stripped end)).

(** The file system is outside the program: [os.makedirs(path,
    exist_ok=True)] either changes it or raises. *)
Record OS : Type := {
  FS : Type;
  makedirs : string -> FS -> result FS
}.

Definition _setup_directories (os : OS) (self : Settings) (fs : FS os)
  : result unit * FS os :=
  match makedirs os (model_cache_dir self) fs with
  | Raise e => (Raise e, fs)
  | Ok fs1 =>
    match makedirs os (log_dir self) fs1 with
    | Raise e => (Raise e, fs1)
    | Ok fs2 =>
      match makedirs os (dirname (model_path self)) fs2 with
      | Raise e => (Raise e, fs2)
      | Ok fs3 => (Ok tt, fs3)
      end
    end
  end.

Definition _validate_config (self : Settings) : result unit :=
  if cluster_enabled self && negb (truthy_opt_str (master_node self))
     && String.eqb (node_type self) "worker" then
    Raise (ValueError "集群模式下工作节点必须指定主节点地址")
  else if tensor_parallel_size self <? 1 then
    Raise (ValueError "张量并行大小必须大于0")
  else if PrimFloat.leb (gpu_memory_utilization self) 0
          || PrimFloat.ltb 1 (gpu_memory_utilization self) then
    Raise (ValueError "GPU内存利用率必须在0-1之间")
  else Ok tt.

(** [Settings.__init__]: the base class has resolved the field values
    [self] (keyword arguments, environment, defaults); the directories are
    created, then the configuration is validated. *)
Definition Settings_init (os : OS) (self : Settings) (fs : FS os)
  : result Settings * FS os :=
  match _setup_directories os self fs with
  | (Raise e, fs') => (Raise e, fs')
  | (Ok _, fs') =>
    match _validate_config self with
    | Raise e => (Raise e, fs')
    | Ok _ => (Ok self, fs')
    end
  end.

Definition is_master_node (self : Settings) : bool :=
  String.eqb (node_type self) "master".

Definition is_worker_node (self : Settings) : bool :=
  String.eqb (node_type self) "worker".

(** ** Python values and conversions *)

(** The values a JSON request body holds. *)
Inductive PyVal : Type :=
| PyNone
| PyBool (b : bool)
| PyInt (z : Z)
| PyFloat (f : float)
| PyStr (s : string)
| PyList (l : list PyVal)
| PyDict (d : list (string * PyVal)).

(** [int(x)] of a float: truncation towards zero; it raises on [nan] and
    on the infinities. *)
Definition int_of_float (x : float) : result Z :=
  match Prim2SF x with
  | S754_zero _ => Ok 0
  | S754_infinity _ => Raise (OverflowError "cannot convert float infinity to integer")
  | S754_nan => Raise (ValueError "cannot convert float NaN to integer")
  | S754_finite s m e =>
    let magnitude := if 0 <=? e then Z.pos m * 2 ^ e else Z.pos m / 2 ^ (- e) in
    Ok (if s then - magnitude else magnitude)
  end.

(** [l[0]] *)
Definition list_index0 {A : Type} (l : list A) : result A :=
  match l with
  | x :: _ => Ok x
  | [] => Raise (IndexError "list index out of range")
  end.

(** ** JSON text ([json.dumps] with [ensure_ascii=False]) *)

Definition hex_digit (n : N) : ascii :=
  ascii_of_N (if (n <? 10)%N then 48 + n else 87 + n)%N.

(** The escape of one character inside a JSON string: the quote, the
    backslash and the control characters are escaped, everything else
    (all bytes of non-ASCII characters included) is kept. *)
Definition json_escape_char (c : ascii) : string :=
  let n := N_of_ascii c in
  if (n =? 34)%N then "\" +:+ dquote
  else if (n =? 92)%N then "\\"
  else if (n =? 10)%N then "\n"
  else if (n =? 13)%N then "\r"
  else if (n =? 9)%N then "\t"
  else if (n =? 8)%N then "\b"
  else if (n =? 12)%N then "\f"
  else if (n <? 32)%N then
    "\u00" +:+ String (hex_digit (n / 16)) (String (hex_digit (n mod 16)) EmptyString)
  else String c EmptyString.

Fixpoint json_escape (s : string) : string :=
  match s with
  | EmptyString => EmptyString
  | String c s' => json_escape_char c +:+ json_escape s'
  end.

Definition json_str (s : string) : string := dquote +:+ json_escape s +:+ dquote.

Definition json_int (z : Z) : string := pretty z.

Definition json_opt_str (o : option string) : string :=
  match o with
  | None => "null"
  | Some s => json_str s
  end.

(** ** The collaborators: vLLM, the tokenizer, the cluster manager *)

(** The keyword arguments a [SamplingParams] was built from; [None] is a
    keyword that was not passed. *)
Record SamplingParams : Type := {
  sp_temperature : PyVal;
  sp_top_p : option PyVal;
  sp_max_tokens : PyVal;
  sp_stop : option PyVal
}.

Record CompletionOutput : Type := {
  text : string;
  finish_reason : option string
}.

Record RequestOutput : Type := {
  outputs : list CompletionOutput
}.

(** What iterating the asynchronous generator returned by
    [llm_engine.generate] produces: finitely many request outputs, then
    the end of the iteration or an exception. *)
Inductive EngineStream : Type :=
| StreamEnd
| StreamYield (request_output : RequestOutput) (rest : EngineStream)
| StreamRaise (e : exn).

Record AsyncLLMEngine : Type := {
  generate : PyVal -> SamplingParams -> string -> EngineStream
}.

Record Tokenizer : Type := {
  tokenizer_encode : string -> list Z
}.

(** [ClusterManager] lives in [utils/cluster_manager.py]; the handlers
    modelled here only read its status. *)
Record ClusterManager : Type := {
  get_status : string
}.

(** The module globals of [main.py]. *)
Record Globals : Type := {
  settings : Settings;
  llm_engine : option AsyncLLMEngine;
  tokenizer : option Tokenizer;
  cluster_manager : option ClusterManager
}.

(** The behaviour of the libraries the handlers call: the successive
    readings of [time.time()], the successive values of [random_uuid()],
    the argument check of the [SamplingParams] constructor ([None]: the
    arguments are accepted), and [str] of an [HTTPException]. *)
Record Runtime : Type := {
  time_time : nat -> float;
  random_uuid : nat -> string;
  SamplingParams_check : SamplingParams -> option exn;
  HTTPException_str : Z -> string -> string
}.

(** [str(e)] *)
Definition str_exn (rt : Runtime) (e : exn) : string :=
  match e with
  | HTTPException status_code detail => HTTPException_str rt status_code detail
  | ValueError msg | IndexError msg | AttributeError msg
  | OverflowError msg | OSError msg | RuntimeError msg => msg
  | CancelledError => ""
  end.

(** ** The world the handlers act on *)

(** A call into a collaborator. *)
Inductive Call : Type :=
| CallSamplingParams (kwargs : SamplingParams)
| CallRandomUuid
| CallGenerate (prompt : PyVal) (sampling_params : SamplingParams) (request_id : string)
| CallEncode (s : string).

Record World : Type := {
  clock_reads : nat;                          (* readings of the clock so far *)
  uuids_drawn : nat;                          (* request ids drawn so far *)
  ACTIVE_REQUESTS : Z;                        (* the gauge *)
  REQUEST_COUNT : gmap (string * string) nat; (* the counter, per (method, endpoint) *)
  REQUEST_DURATION : list float;              (* the histogram's observations *)
  error_log : list string;                    (* logger.error *)
  calls : list Call                           (* calls into collaborators, oldest first *)
}.

(** A computation on the world that may raise. *)
Definition M (A : Type) : Type := World -> result A * World.

Definition ret {A : Type} (a : A) : M A := fun w => (Ok a, w).

Definition raise {A : Type} (e : exn) : M A := fun w => (Raise e, w).

Definition bind {A B : Type} (m : M A) (k : A -> M B) : M B :=
  fun w =>
    match m w with
    | (Ok a, w') => k a w'
    | (Raise e, w') => (Raise e, w')
    end.

Notation "'let*' x ':=' m 'in' k" := (bind m (fun x => k))
  (at level 10, x name, m at level 100, k at level 200).

Definition lift {A : Type} (r : result A) : M A := fun w => (r, w).

(** [try: body except Exception as e: handler(e)] *)
Definition try_except {A : Type} (body : M A) (handler : exn -> M A) : M A :=
  fun w =>
    match body w with
    | (Ok a, w') => (Ok a, w')
    | (Raise e, w') => if is_Exception e then handler e w' else (Raise e, w')
    end.

(** [try: body finally: cleanup] for a clean-up that does not raise. *)
Definition try_finally {A : Type} (body : M A) (cleanup : World -> World) : M A :=
  fun w => let '(r, w') := body w in (r, cleanup w').

Definition set_ACTIVE_REQUESTS (f : Z -> Z) (w : World) : World :=
  {| clock_reads := clock_reads w; uuids_drawn := uuids_drawn w;
     ACTIVE_REQUESTS := f (ACTIVE_REQUESTS w); REQUEST_COUNT := REQUEST_COUNT w;
     REQUEST_DURATION := REQUEST_DURATION w; error_log := error_log w;
     calls := calls w |}.

Definition REQUEST_COUNT_inc (method endpoint : string) (w : World) : World :=
  {| clock_reads := clock_reads w; uuids_drawn := uuids_drawn w;
     ACTIVE_REQUESTS := ACTIVE_REQUESTS w;
     REQUEST_COUNT :=
       <[(method, endpoint) := S (default 0%nat (REQUEST_COUNT w !! (method, endpoint)))]>
         (REQUEST_COUNT w);
     REQUEST_DURATION := REQUEST_DURATION w; error_log := error_log w;
     calls := calls w |}.

Definition REQUEST_DURATION_observe (x : float) (w : World) : World :=
  {| clock_reads := clock_reads w; uuids_drawn := uuids_drawn w;
     ACTIVE_REQUESTS := ACTIVE_REQUESTS w; REQUEST_COUNT := REQUEST_COUNT w;
     REQUEST_DURATION := REQUEST_DURATION w ++ [x]; error_log := error_log w;
     calls := calls w |}.

Definition tick_clock (w : World) : World :=
  {| clock_reads := S (clock_reads w); uuids_drawn := uuids_drawn w;
     ACTIVE_REQUESTS := ACTIVE_REQUESTS w; REQUEST_COUNT := REQUEST_COUNT w;
     REQUEST_DURATION := REQUEST_DURATION w; error_log := error_log w;
     calls := calls w |}.

Definition add_call (c : Call) (w : World) : World :=
  {| clock_reads := clock_reads w;
     uuids_drawn := match c with CallRandomUuid => S (uuids_drawn w) | _ => uuids_drawn w end;
     ACTIVE_REQUESTS := ACTIVE_REQUESTS w; REQUEST_COUNT := REQUEST_COUNT w;
     REQUEST_DURATION := REQUEST_DURATION w; error_log := error_log w;
     calls := calls w ++ [c] |}.

Definition add_error_log (line : string) (w : World) : World :=
  {| clock_reads := clock_reads w; uuids_drawn := uuids_drawn w;
     ACTIVE_REQUESTS := ACTIVE_REQUESTS w; REQUEST_COUNT := REQUEST_COUNT w;
     REQUEST_DURATION := REQUEST_DURATION w; error_log := error_log w ++ [line];
     calls := calls w |}.

(** [time.time()] *)
Definition now (rt : Runtime) : M float :=
  fun w => (Ok (time_time rt (clock_reads w)), tick_clock w).

(** [random_uuid()] *)
Definition draw_uuid (rt : Runtime) : M string :=
  fun w => (Ok (random_uuid rt (uuids_drawn w)), add_call CallRandomUuid w).

Definition call (c : Call) : M unit := fun w => (Ok tt, add_call c w).

Definition logger_error (line : string) : M unit :=
  fun w => (Ok tt, add_error_log line w).

(** The constructor of [SamplingParams], called with keyword arguments. *)
Definition new_SamplingParams (rt : Runtime) (kwargs : SamplingParams) : M SamplingParams :=
  let* _ := call (CallSamplingParams kwargs) in
  match SamplingParams_check rt kwargs with
  | Some e => raise e
  | None => ret kwargs
  end.

(** Attribute access on an optional global: [None] has no attributes. *)
Definition attr {A : Type} (o : option A) (name : string) : result A :=
  match o with
  | Some a => Ok a
  | None =>
    Raise (AttributeError ("'NoneType' object has no attribute '" +:+ name +:+ "'"))
  end.

(** ** Request and response models ([main.py]) *)

Record ChatCompletionRequest : Type := {
  model : string;
  messages : list ChatMessage;
  temperature : float;
  max_tokens : Z;
  top_p : float;
  stream : bool;
  stop : option (list string)
}.

(** The dictionaries of a response, as records of their keys. *)
Record Choice : Type := {
  choice_index : Z;
  choice_message : ChatMessage;
  choice_finish_reason : option string
}.

Record Usage : Type := {
  prompt_tokens : Z;
  completion_tokens : Z;
  total_tokens : Z
}.

Record ChatCompletionResponse : Type := {
  response_id : string;
  response_object : string;
  response_created : Z;
  response_model : string;
  choices : list Choice;
  usage : Usage
}.

(** The dictionary serialised for every request output of a stream. *)
Record ChunkChoice : Type := {
  chunk_choice_index : Z;
  delta_content : string;
  chunk_finish_reason : option string
}.

Record Chunk : Type := {
  chunk_id : string;
  chunk_object : string;
  chunk_created : Z;
  chunk_model : string;
  chunk_choices : list ChunkChoice
}.

Record HealthResponse : Type := {
  health_status : string;
  health_model_loaded : bool;
  health_cluster_status : string;
  health_node_id : string;
  health_uptime : float
}.

(** The dictionary [create_completion] returns. *)
Record TextChoice : Type := {
  text_choice_text : string;
  text_choice_index : Z;
  text_choice_finish_reason : option string
}.

Record TextCompletion : Type := {
  completion_id : string;
  completion_object : string;
  completion_created : Z;
  completion_model : PyVal;
  completion_choices : list TextChoice
}.

(** What running an asynchronous generator to its end produces: the
    strings it yielded, and the exception that ended it, if any. *)
Record GenRun : Type := {
  yielded : list string;
  raised : option exn
}.

Definition Generator : Type := World -> GenRun * World.

Inductive Response : Type :=
| JSONResponse (body : ChatCompletionResponse)
| StreamingResponse (body : Generator) (media_type : string).

Definition json_dumps_chunk_choice (c : ChunkChoice) : string :=
  "{" +:+ json_str "index" +:+ ": " +:+ json_int (chunk_choice_index c) +:+ ", "
  +:+ json_str "delta" +:+ ": {" +:+ json_str "content" +:+ ": "
  +:+ json_str (delta_content c) +:+ "}, "
  +:+ json_str "finish_reason" +:+ ": " +:+ json_opt_str (chunk_finish_reason c) +:+ "}".

Fixpoint json_dumps_list (items : list string) : string :=
  match items with
  | [] => ""
  | [x] => x
  | x :: rest => x +:+ ", " +:+ json_dumps_list rest
  end.

(** [json.dumps(chunk, ensure_ascii=False)] *)
Definition json_dumps_chunk (c : Chunk) : string :=
  "{" +:+ json_str "id" +:+ ": " +:+ json_str (chunk_id c) +:+ ", "
  +:+ json_str "object" +:+ ": " +:+ json_str (chunk_object c) +:+ ", "
  +:+ json_str "created" +:+ ": " +:+ json_int (chunk_created c) +:+ ", "
  +:+ json_str "model" +:+ ": " +:+ json_str (chunk_model c) +:+ ", "
  +:+ json_str "choices" +:+ ": ["
  +:+ json_dumps_list (map json_dumps_chunk_choice (chunk_choices c)) +:+ "]}".

(** ** The handlers ([main.py]) *)

(** The truth value of [llm_engine] is that of an object or of [None]:
    an engine, once created, is true. *)
Definition health_check (rt : Runtime) (g : Globals) : M HealthResponse :=
  let* t := now rt in
  ret {| health_status := match llm_engine g with Some _ => "healthy" | None => "loading" end;
         health_model_loaded := match llm_engine g with Some _ => true | None => false end;
         health_cluster_status :=
           match cluster_manager g with
           | Some cm => get_status cm
           | None => "unknown"
           end;
         health_node_id := node_id (settings g);
         health_uptime := PrimFloat.sub t (start_time (settings g)) |}.

(** The loop [async for request_output in results_generator:
    final_output = request_output]. *)
Fixpoint last_output (results_generator : EngineStream)
  (final_output : option RequestOutput) : result (option RequestOutput) :=
  match results_generator with
  | StreamEnd => Ok final_output
  | StreamYield request_output rest => last_output rest (Some request_output)
  | StreamRaise e => Raise e
  end.

Definition generate_chat_completion (rt : Runtime) (g : Globals)
  (prompt : string) (sampling_params : SamplingParams)
  (request_id : string) (model : string) : M ChatCompletionResponse :=
  let* start_time := now rt in
  let* engine := lift (attr (llm_engine g) "generate") in
  let* _ := call (CallGenerate (PyStr prompt) sampling_params request_id) in
  let results_generator := generate engine (PyStr prompt) sampling_params request_id in
  let* final_output := lift (last_output results_generator None) in
  match final_output with
  | None => raise (HTTPException 500 "推理失败")
  | Some final_output =>
    let* output := lift (list_index0 (outputs final_output)) in
    let generated_text := text output in
    let* tok := lift (attr (tokenizer g) "encode") in
    let* _ := call (CallEncode prompt) in
    let prompt_tokens := Z.of_nat (length (tokenizer_encode tok prompt)) in
    let* _ := call (CallEncode generated_text) in
    let completion_tokens := Z.of_nat (length (tokenizer_encode tok generated_text)) in
    let* created := lift (int_of_float start_time) in
    ret {| response_id := request_id;
           response_object := "chat.completion";
           response_created := created;
           response_model := model;
           choices :=
             [ {| choice_index := 0;
                  choice_message := {| role := "assistant"; content := generated_text |};
                  choice_finish_reason := finish_reason output |} ];
           usage := {| prompt_tokens := prompt_tokens;
                       completion_tokens := completion_tokens;
                       total_tokens := prompt_tokens + completion_tokens |} |}
  end.

Definition chunk_of (request_id : string) (created : Z) (model : string)
  (output : CompletionOutput) : Chunk :=
  {| chunk_id := request_id;
     chunk_object := "chat.completion.chunk";
     chunk_created := created;
     chunk_model := model;
     chunk_choices :=
       [ {| chunk_choice_index := 0;
            delta_content := text output;
            chunk_finish_reason := finish_reason output |} ] |}.

Definition sse_data (payload : string) : string := "data: " +:+ payload +:+ nl +:+ nl.

(** The loop of [stream_chat_completion] and the end marker after it. *)
Fixpoint stream_loop (request_id : string) (start_time : float) (model : string)
  (results_generator : EngineStream) : GenRun :=
  match results_generator with
  | StreamEnd => {| yielded := [sse_data "[DONE]"]; raised := None |}
  | StreamRaise e => {| yielded := []; raised := Some e |}
  | StreamYield request_output rest =>
    match list_index0 (outputs request_output) with
    | Raise e => {| yielded := []; raised := Some e |}
    | Ok output =>
      match int_of_float start_time with
      | Raise e => {| yielded := []; raised := Some e |}
      | Ok created =>
        let chunk := chunk_of request_id created model output in
        let later := stream_loop request_id start_time model rest in
        {| yielded := sse_data (json_dumps_chunk chunk) :: yielded later;
           raised := raised later |}
      end
    end
  end.

(** [stream_chat_completion]: nothing runs until the generator is
    iterated, which the response does after the handler has returned. *)
Definition stream_chat_completion (rt : Runtime) (g : Globals)
  (prompt : string) (sampling_params : SamplingParams)
  (request_id : string) (model : string) : Generator :=
  fun w =>
    let start_time := time_time rt (clock_reads w) in
    let w1 := tick_clock w in
    match attr (llm_engine g) "generate" with
    | Raise e => ({| yielded := []; raised := Some e |}, w1)
    | Ok engine =>
      let w2 := add_call (CallGenerate (PyStr prompt) sampling_params request_id) w1 in
      let results_generator := generate engine (PyStr prompt) sampling_params request_id in
      (stream_loop request_id start_time model results_generator, w2)
    end.

Definition stop_kwarg (stop : option (list string)) : PyVal :=
  match stop with
  | None => PyNone
  | Some l => PyList (map PyStr l)
  end.

Definition create_chat_completion (rt : Runtime) (g : Globals)
  (request : ChatCompletionRequest) : M Response :=
  match llm_engine g with
  | None => raise (HTTPException 503 "模型尚未加载完成")
  | Some _ =>
    try_except
      (let prompt := format_messages (messages request) in
       let* sampling_params :=
         new_SamplingParams rt
           {| sp_temperature := PyFloat (temperature request);
              sp_top_p := Some (PyFloat (top_p request));
              sp_max_tokens := PyInt (max_tokens request);
              sp_stop := Some (stop_kwarg (stop request)) |} in
       let* request_id := draw_uuid rt in
       if stream request then
         ret (StreamingResponse
                (stream_chat_completion rt g prompt sampling_params request_id (model request))
                "text/plain")
       else
         let* body :=
           generate_chat_completion rt g prompt sampling_params request_id (model request) in
         ret (JSONResponse body))
      (fun e =>
         let* _ := logger_error ("聊天完成请求失败: " +:+ str_exn rt e) in
         raise (HTTPException 500 (str_exn rt e)))
  end.

(** [request.get(key, default)] on the JSON body of [create_completion]. *)
Definition dict_get (request : gmap string PyVal) (key : string) (default : PyVal) : PyVal :=
  match request !! key with
  | Some v => v
  | None => default
  end.

Definition create_completion (rt : Runtime) (g : Globals)
  (request : gmap string PyVal) : M TextCompletion :=
  match llm_engine g with
  | None => raise (HTTPException 503 "模型尚未加载完成")
  | Some engine =>
    try_except
      (let prompt := dict_get request "prompt" (PyStr "") in
       let max_tokens := dict_get request "max_tokens" (PyInt 100) in
       let temperature := dict_get request "temperature" (PyFloat 0.7%float) in
       let* sampling_params :=
         new_SamplingParams rt
           {| sp_temperature := temperature;
              sp_top_p := None;
              sp_max_tokens := max_tokens;
              sp_stop := None |} in
       let* request_id := draw_uuid rt in
       let* _ := call (CallGenerate prompt sampling_params request_id) in
       let results_generator := generate engine prompt sampling_params request_id in
       let* final_output := lift (last_output results_generator None) in
       match final_output with
       | None => raise (HTTPException 500 "推理失败")
       | Some final_output =>
         let* output := lift (list_index0 (outputs final_output)) in
         let* t := now rt in
         let* created := lift (int_of_float t) in
         ret {| completion_id := request_id;
                completion_object := "text_completion";
                completion_created := created;
                completion_model := dict_get request "model" (PyStr "deepseek-coder");
                completion_choices :=
                  [ {| text_choice_text := text output;
                       text_choice_index := 0;
                       text_choice_finish_reason := finish_reason output |} ] |}
       end)
      (fun e =>
         let* _ := logger_error ("文本完成请求失败: " +:+ str_exn rt e) in
         raise (HTTPException 500 (str_exn rt e)))
  end.

(** ** The metrics middleware ([main.py], [metrics_middleware]) *)

Record HttpRequest : Type := {
  method : string;
  url_path : string
}.

Definition metrics_middleware {R : Type} (rt : Runtime)
  (request : HttpRequest) (call_next : HttpRequest -> M R) : M R :=
  let* start_time := now rt in
  let* _ := (fun w => (Ok tt, set_ACTIVE_REQUESTS Z.succ w)) in
  try_finally
    (let* response := call_next request in
     let* _ := (fun w => (Ok tt, REQUEST_COUNT_inc (method request) (url_path request) w)) in
     ret response)
    (fun w =>
       let t := time_time rt (clock_reads w) in
       set_ACTIVE_REQUESTS Z.pred
         (REQUEST_DURATION_observe (PrimFloat.sub t start_time) (tick_clock w))).

(** ** The serving coordinator of the specification

    The registry, the circuit breaker, the load balancer and the admission
    controller are the work of [utils/cluster_manager.py], which
    [main.py] imports and of which it only calls [register_node],
    [unregister_node], [get_status], [get_cluster_status] and
    [rebalance_load]. They are modelled here from sections 3 to 5 of the
    specification. Time is a number of seconds. *)

Module Coordinator.

(** Modelled from the spec: the health states of a node (section 3); the
    registry code is missing. *)
Inductive HealthState : Type := Healthy | Suspect | Unreachable.

(** Modelled from the spec: the states of a circuit breaker (section 3);
    the breaker code is missing. *)
Inductive BreakerPhase : Type := Closed | Open | HalfOpen.

#[global] Instance HealthState_eq_dec : EqDecision HealthState.
Proof. solve_decision. Defined.

#[global] Instance BreakerPhase_eq_dec : EqDecision BreakerPhase.
Proof. solve_decision. Defined.

(** Modelled from the spec: a registered node (section 3, Node); the
    registry code is missing. *)
Record Node : Type := {
  node_id : string;
  address : string;
  role : string;
  model_name : string;
  max_concurrency : nat;
  health : HealthState;
  last_heartbeat_timestamp : Z;
  consecutive_failure_count : nat
}.

(** Modelled from the spec: the breaker record of a node (section 3,
    BreakerState); the breaker code is missing. The failures of the
    rolling window are kept by their times, so [failure_count] is their
    number. *)
Record BreakerState : Type := {
  failures : list Z;
  state : BreakerPhase;
  opened_at : Z
}.

Definition failure_count (b : BreakerState) : nat := length (failures b).

(** Modelled from the spec: the configuration of sections 4.2 to 4.4;
    the code reading it is missing. *)
Record Config : Type := {
  failure_threshold : nat;
  rolling_window : Z;
  cooldown_duration : Z;
  unreachable_after : nat;
  eviction_timeout : Z;
  sticky_sessions : bool
}.

(** Modelled from the spec: the tables the coordinator owns (registry,
    breakers, sticky sessions, the position of the rotation). *)
Record Cluster : Type := {
  registry : gmap string Node;
  breakers : gmap string BreakerState;
  sessions : gmap string string;
  cursor : nat
}.

Definition empty_cluster : Cluster :=
  {| registry := ∅; breakers := ∅; sessions := ∅; cursor := 0 |}.

Definition fresh_breaker : BreakerState :=
  {| failures := []; state := Closed; opened_at := 0 |}.

(** The breaker of a node; a node without failures so far is Closed. *)
Definition breaker_of (c : Cluster) (id : string) : BreakerState :=
  default fresh_breaker (breakers c !! id).

Definition set_registry (r : gmap string Node) (c : Cluster) : Cluster :=
  {| registry := r; breakers := breakers c; sessions := sessions c; cursor := cursor c |}.

Definition set_breaker (id : string) (b : BreakerState) (c : Cluster) : Cluster :=
  {| registry := registry c; breakers := <[id := b]> (breakers c);
     sessions := sessions c; cursor := cursor c |}.

Definition with_health (h : HealthState) (ts : Z) (misses : nat) (n : Node) : Node :=
  {| node_id := node_id n; address := address n; role := role n;
     model_name := model_name n; max_concurrency := max_concurrency n;
     health := h; last_heartbeat_timestamp := ts;
     consecutive_failure_count := misses |}.

(** Modelled from the spec: Register (section 4.1), idempotent on the
    node id: the metadata of a known node is kept and its heartbeat
    time is overwritten. *)
Definition Register (n : Node) (c : Cluster) : Cluster :=
  match registry c !! node_id n with
  | Some old =>
    set_registry
      (<[node_id n := with_health (health old) (last_heartbeat_timestamp n)
                        (consecutive_failure_count old) old]> (registry c)) c
  | None => set_registry (<[node_id n := n]> (registry c)) c
  end.

(** Modelled from the spec: the departure of a node (sections 4.1 and
    4.2): its registry entry, its breaker and the sessions mapped to it
    go. *)
Definition Unregister (id : string) (c : Cluster) : Cluster :=
  {| registry := delete id (registry c);
     breakers := delete id (breakers c);
     sessions := filter (fun kv => snd kv ≠ id) (sessions c);
     cursor := cursor c |}.

(** Modelled from the spec: UpdateHeartbeat (section 4.1); [None] is the
    failure UnknownNode. A fresh heartbeat makes the node Healthy. *)
Definition UpdateHeartbeat (id : string) (ts : Z) (c : Cluster)
  : option HealthState * Cluster :=
  match registry c !! id with
  | None => (None, c)
  | Some n => (Some Healthy, set_registry (<[id := with_health Healthy ts 0 n]> (registry c)) c)
  end.

(** Modelled from the spec: a missed heartbeat window (sections 3 and
    4.2): Healthy becomes Suspect, Suspect becomes Unreachable after the
    configured number of consecutive misses. *)
Definition MissedHeartbeat (cfg : Config) (id : string) (c : Cluster) : Cluster :=
  match registry c !! id with
  | None => c
  | Some n =>
    let misses := S (consecutive_failure_count n) in
    let h :=
      match health n with
      | Healthy => Suspect
      | Suspect => if bool_decide (unreachable_after cfg ≤ misses)%nat then Unreachable else Suspect
      | Unreachable => Unreachable
      end in
    set_registry (<[id := with_health h (last_heartbeat_timestamp n) misses n]> (registry c)) c
  end.

(** Modelled from the spec: the eviction of an Unreachable node whose
    last heartbeat is older than the eviction timeout (section 4.2). *)
Definition Evict (cfg : Config) (id : string) (now : Z) (c : Cluster) : Cluster :=
  match registry c !! id with
  | Some n =>
    if bool_decide (health n = Unreachable)
       && bool_decide (eviction_timeout cfg ≤ now - last_heartbeat_timestamp n)
    then Unregister id c else c
  | None => c
  end.

(** Modelled from the spec: RecordOutcome (sections 3 and 4.3). A Closed
    breaker opens when the failures inside the rolling window reach the
    threshold; the trial of a HalfOpen breaker closes it on success and
    reopens it, with a fresh cooldown, on failure. *)
Definition RecordOutcome (cfg : Config) (id : string) (success : bool) (now : Z)
  (c : Cluster) : Cluster :=
  let b := breaker_of c id in
  match state b with
  | Closed =>
    if success then c
    else
      let recent :=
        now :: filter (fun t => bool_decide (now - t < rolling_window cfg)) (failures b) in
      if bool_decide (failure_threshold cfg ≤ length recent)%nat
      then set_breaker id {| failures := recent; state := Open; opened_at := now |} c
      else set_breaker id {| failures := recent; state := Closed; opened_at := opened_at b |} c
  | Open => c
  | HalfOpen =>
    if success then set_breaker id fresh_breaker c
    else set_breaker id {| failures := failures b; state := Open; opened_at := now |} c
  end.

(** Modelled from the spec: IsEligible (sections 4.3 and 8). A Closed
    breaker is eligible; an Open one whose cooldown has elapsed becomes
    HalfOpen and lets exactly one probe through. *)
Definition IsEligible (cfg : Config) (id : string) (now : Z) (c : Cluster)
  : bool * Cluster :=
  let b := breaker_of c id in
  match state b with
  | Closed => (true, c)
  | Open =>
    if bool_decide (cooldown_duration cfg ≤ now - opened_at b)
    then (true, set_breaker id {| failures := failures b; state := HalfOpen;
                                  opened_at := opened_at b |} c)
    else (false, c)
  | HalfOpen => (false, c)
  end.

(** Modelled from the spec: membership in the Closed and Healthy subset
    (section 4.4). A HalfOpen node is not in it: its single probe is let
    through by IsEligible. *)
Definition routable (c : Cluster) (id : string) : bool :=
  match registry c !! id with
  | Some n =>
    bool_decide (health n = Healthy) && bool_decide (state (breaker_of c id) = Closed)
  | None => false
  end.

(** Modelled from the spec: the nodes of the rotation, ordered by node
    id (section 4.4, tie-break), all of equal weight. *)
Definition rotation (c : Cluster) : list string :=
  merge_sort String.le (filter (fun id => routable c id = true) (elements (dom (registry c)))).

(** Modelled from the spec: the context of a request (section 3,
    RequestContext). *)
Record RequestContext : Type := {
  request_id : string;
  arrival_time : Z;
  session_key : option string;
  assigned_node : option string;
  admission_ticket : option nat;
  cancelled : bool
}.

(** Modelled from the spec: the result of SelectNode (section 4.4). *)
Inductive Selection : Type :=
| Selected (id : string)
| NoEligibleNode.

(** Modelled from the spec: one step of the round-robin rotation. *)
Definition round_robin (c : Cluster) : Selection * Cluster :=
  let nodes := rotation c in
  match nodes !! (cursor c mod length nodes)%nat with
  | Some id =>
    (Selected id,
     {| registry := registry c; breakers := breakers c; sessions := sessions c;
        cursor := S (cursor c) |})
  | None => (NoEligibleNode, c)
  end.

Definition remember (key id : string) (c : Cluster) : Cluster :=
  {| registry := registry c; breakers := breakers c;
     sessions := <[key := id]> (sessions c); cursor := cursor c |}.

(** Modelled from the spec: SelectNode (section 4.4). With sticky
    sessions the mapped node is used while it is Healthy and Closed;
    otherwise the rotation chooses and the mapping is recorded. *)
Definition SelectNode (cfg : Config) (ctx : RequestContext) (c : Cluster)
  : Selection * Cluster :=
  match (if sticky_sessions cfg then session_key ctx else None) with
  | Some key =>
    match sessions c !! key with
    | Some id => if routable c id then (Selected id, c) else
        match round_robin c with
        | (Selected id', c') => (Selected id', remember key id' c')
        | (NoEligibleNode, c') => (NoEligibleNode, c')
        end
    | None =>
        match round_robin c with
        | (Selected id', c') => (Selected id', remember key id' c')
        | (NoEligibleNode, c') => (NoEligibleNode, c')
        end
    end
  | None => round_robin c
  end.

(** The events that change the coordinator's tables. *)
Inductive Event : Type :=
| EvRegister (n : Node)
| EvUnregister (id : string)
| EvHeartbeat (id : string) (ts : Z)
| EvMissedHeartbeat (id : string)
| EvEvict (id : string) (now : Z)
| EvRecordOutcome (id : string) (success : bool) (now : Z)
| EvIsEligible (id : string) (now : Z)
| EvSelectNode (ctx : RequestContext).

Definition step (cfg : Config) (c : Cluster) (ev : Event) : Cluster :=
  match ev with
  | EvRegister n => Register n c
  | EvUnregister id => Unregister id c
  | EvHeartbeat id ts => snd (UpdateHeartbeat id ts c)
  | EvMissedHeartbeat id => MissedHeartbeat cfg id c
  | EvEvict id now => Evict cfg id now c
  | EvRecordOutcome id success now => RecordOutcome cfg id success now c
  | EvIsEligible id now => snd (IsEligible cfg id now c)
  | EvSelectNode ctx => snd (SelectNode cfg ctx c)
  end.

Definition run (cfg : Config) (events : list Event) (c : Cluster) : Cluster :=
  fold_left (step cfg) events c.

End Coordinator.

Module Admission.

(** Modelled from the spec: the reasons of a rejection (section 4.5); the
    admission controller's code is missing. *)
Inductive Reason : Type := ConcurrencyLimit | RateLimit.

(** Modelled from the spec: the result of TryAcquire (section 4.5). *)
Inductive Outcome : Type :=
| Ticket (id : nat)
| Rejected (reason : Reason).

(** Modelled from the spec: the controller's state (sections 4.5 and 5):
    the two limits, the tickets outstanding, and the times of the
    admissions inside the rate window. *)
Record Controller : Type := {
  concurrency_ceiling : nat;
  rate_limit : nat;
  rate_window : Z;
  outstanding : gset nat;
  next_ticket : nat;
  admissions : list Z
}.

(** The controller the configuration asks for, with nothing in flight. *)

(** A controller with the given limits and nothing in flight. *)
Definition fresh (ceiling limit : nat) (window : Z) : Controller :=
  {| concurrency_ceiling := ceiling;
     rate_limit := limit;
     rate_window := window;
     outstanding := ∅;
     next_ticket := 0;
     admissions := [] |}.

Definition in_flight (c : Controller) : nat := size (outstanding c).

(** Modelled from the spec: TryAcquire (section 4.5), which never blocks:
    it rejects when the concurrency ceiling is reached, then when the
    admissions of the rolling window reach the rate limit, and issues a
    fresh ticket otherwise. *)
Definition TryAcquire (now : Z) (c : Controller) : Outcome * Controller :=
  if bool_decide (concurrency_ceiling c ≤ in_flight c)%nat then
    (Rejected ConcurrencyLimit, c)
  else
    let recent := filter (fun t => bool_decide (now - t < rate_window c)) (admissions c) in
    if bool_decide (rate_limit c ≤ length recent)%nat then
      (Rejected RateLimit, c)
    else
      (Ticket (next_ticket c),
       {| concurrency_ceiling := concurrency_ceiling c;
          rate_limit := rate_limit c;
          rate_window := rate_window c;
          outstanding := {[next_ticket c]} ∪ outstanding c;
          next_ticket := S (next_ticket c);
          admissions := now :: recent |}).

(** Modelled from the spec: Release (section 4.5): the ticket is no
    longer outstanding. *)
Definition Release (ticket : nat) (c : Controller) : Controller :=
  {| concurrency_ceiling := concurrency_ceiling c;
     rate_limit := rate_limit c;
     rate_window := rate_window c;
     outstanding := outstanding c ∖ {[ticket]};
     next_ticket := next_ticket c;
     admissions := admissions c |}.

(** The controller the configuration asks for. *)
Definition of_settings (s : Settings) : Controller :=
  fresh (Z.to_nat (max_concurrent_requests s)) (Z.to_nat (rate_limit_requests s))
    (rate_limit_window s).

(** The calls that reach the controller, in the order in which it
    serialises them. *)
Inductive Op : Type :=
| OpTryAcquire (now : Z)
| OpRelease (ticket : nat).

Definition apply_op (c : Controller) (op : Op) : Controller :=
  match op with
  | OpTryAcquire now => snd (TryAcquire now c)
  | OpRelease ticket => Release ticket c
  end.

Definition run (ops : list Op) (c : Controller) : Controller :=
  fold_left apply_op ops c.

End Admission.

(** ** Auxiliary definitions and worked instances *)

(** A computation that leaves [ACTIVE_REQUESTS] as it found it, however
    it ends. *)
Definition keeps_gauge {A : Type} (m : M A) : Prop :=
  forall w : World, ACTIVE_REQUESTS (snd (m w)) = ACTIVE_REQUESTS w.

(** The response [generate_chat_completion] builds from the output it
    kept. *)
Definition chat_response (request_id : string) (created : Z) (model : string)
  (tok : Tokenizer) (prompt : string) (output : CompletionOutput)
  : ChatCompletionResponse :=
  {| response_id := request_id;
     response_object := "chat.completion";
     response_created := created;
     response_model := model;
     choices :=
       [ {| choice_index := 0;
            choice_message := {| role := "assistant"; content := text output |};
            choice_finish_reason := finish_reason output |} ];
     usage :=
       {| prompt_tokens := Z.of_nat (length (tokenizer_encode tok prompt));
          completion_tokens := Z.of_nat (length (tokenizer_encode tok (text output)));
          total_tokens :=
            Z.of_nat (length (tokenizer_encode tok prompt))
            + Z.of_nat (length (tokenizer_encode tok (text output))) |} |}.

(** The keyword arguments [create_chat_completion] passes to
    [SamplingParams]. *)
Definition chat_kwargs (request : ChatCompletionRequest) : SamplingParams :=
  {| sp_temperature := PyFloat (temperature request);
     sp_top_p := Some (PyFloat (top_p request));
     sp_max_tokens := PyInt (max_tokens request);
     sp_stop := Some (stop_kwarg (stop request)) |}.

(** The world in which the body of the handler's [try] reaches the
    choice between streaming and not. *)
Definition prepared (request : ChatCompletionRequest) (w : World) : World :=
  add_call CallRandomUuid (add_call (CallSamplingParams (chat_kwargs request)) w).

(** A request output with a single completion, and the engine stream
    that yields the given request outputs and ends. *)
Definition single (output : CompletionOutput) : RequestOutput :=
  {| outputs := [output] |}.

Definition stream_of (request_outputs : list RequestOutput) : EngineStream :=
  fold_right StreamYield StreamEnd request_outputs.

Definition example_runtime : Runtime :=
  {| time_time := fun _ => 1700000000.5%float;
     random_uuid := fun k => "req-" +:+ pretty k;
     SamplingParams_check := fun _ => None;
     HTTPException_str := fun status_code detail => pretty status_code +:+ ": " +:+ detail |}.

(** A tokenizer with one token per byte. *)
Definition byte_tokenizer : Tokenizer :=
  {| tokenizer_encode := fun s => map (fun c => Z.of_N (N_of_ascii c)) (list_ascii_of_string s) |}.

Definition hello_outputs : list CompletionOutput :=
  [ {| text := "Hel"; finish_reason := None |};
    {| text := "lo"; finish_reason := None |};
    {| text := "!"; finish_reason := Some "stop" |} ].

Definition hello_engine : AsyncLLMEngine :=
  {| generate := fun _ _ _ => stream_of (map single hello_outputs) |}.

Definition example_settings : Settings :=
  Settings_defaults "node-1" 1699999000%float "pod-1".

Definition hello_globals : Globals :=
  {| settings := example_settings;
     llm_engine := Some hello_engine;
     tokenizer := Some byte_tokenizer;
     cluster_manager := Some {| get_status := "healthy" |} |}.

Definition idle_world : World :=
  {| clock_reads := 0; uuids_drawn := 0; ACTIVE_REQUESTS := 0; REQUEST_COUNT := ∅;
     REQUEST_DURATION := []; error_log := []; calls := [] |}.

Definition hello_request (streaming : bool) : ChatCompletionRequest :=
  {| model := "deepseek-coder";
     messages := [ {| role := "user"; content := "Say hello" |} ];
     temperature := 0.7%float;
     max_tokens := 2048;
     top_p := 0.9%float;
     stream := streaming;
     stop := None |}.

Definition hello_chunk (output : CompletionOutput) : Chunk :=
  chunk_of "req-0" 1700000000 "deepseek-coder" output.

(** The body of the non-streaming answer to [hello_request]. *)
Definition hello_body : ChatCompletionResponse :=
  chat_response "req-0" 1700000000 "deepseek-coder" byte_tokenizer
    (format_messages (messages (hello_request false)))
    {| text := "!"; finish_reason := Some "stop" |}.

Definition hello_world_after : World :=
  snd (create_chat_completion example_runtime hello_globals (hello_request false) idle_world).

(** An engine that dies as soon as it is asked to generate, and one that
    ends without any output. *)
Definition dead_engine : AsyncLLMEngine :=
  {| generate := fun _ _ _ => StreamRaise (RuntimeError "engine dead") |}.

Definition silent_engine : AsyncLLMEngine :=
  {| generate := fun _ _ _ => StreamEnd |}.

Definition globals_with (engine : option AsyncLLMEngine) : Globals :=
  {| settings := example_settings;
     llm_engine := engine;
     tokenizer := Some byte_tokenizer;
     cluster_manager := Some {| get_status := "healthy" |} |}.

(** The keyword arguments that the instances below override. *)
Definition Settings_override (master : option string) (kind : string)
  (tensor : Z) (gpu : float) (self : Settings) : Settings :=
  {| app_name := app_name self; version := version self; debug := debug self;
     log_level := log_level self; host := host self; port := port self;
     workers := workers self; node_id := node_id self; node_type := kind;
     node_role := node_role self; start_time := start_time self;
     model_name := model_name self; model_path := model_path self;
     model_dtype := model_dtype self; max_model_len := max_model_len self;
     tensor_parallel_size := tensor;
     pipeline_parallel_size := pipeline_parallel_size self;
     gpu_memory_utilization := gpu; quantization := quantization self;
     max_num_seqs := max_num_seqs self;
     max_num_batched_tokens := max_num_batched_tokens self;
     default_temperature := default_temperature self;
     default_top_p := default_top_p self;
     default_max_tokens := default_max_tokens self;
     default_stop_sequences := default_stop_sequences self;
     cluster_enabled := cluster_enabled self; master_node := master;
     cluster_discovery_method := cluster_discovery_method self;
     heartbeat_interval := heartbeat_interval self;
     k8s_namespace := k8s_namespace self; k8s_service_name := k8s_service_name self;
     k8s_pod_name := k8s_pod_name self; hw_access_key := hw_access_key self;
     hw_secret_key := hw_secret_key self; hw_region := hw_region self;
     obs_bucket := obs_bucket self; obs_endpoint := obs_endpoint self;
     model_cache_dir := model_cache_dir self; log_dir := log_dir self;
     temp_dir := temp_dir self; metrics_enabled := metrics_enabled self;
     metrics_port := metrics_port self; jaeger_enabled := jaeger_enabled self;
     jaeger_endpoint := jaeger_endpoint self; api_key := api_key self;
     jwt_secret := jwt_secret self; cors_origins := cors_origins self;
     rate_limit_enabled := rate_limit_enabled self;
     rate_limit_requests := rate_limit_requests self;
     rate_limit_window := rate_limit_window self;
     max_concurrent_requests := max_concurrent_requests self;
     request_timeout := request_timeout self;
     keep_alive_timeout := keep_alive_timeout self;
     health_check_enabled := health_check_enabled self;
     health_check_interval := health_check_interval self;
     health_check_timeout := health_check_timeout self;
     load_balance_strategy := load_balance_strategy self;
     sticky_sessions := sticky_sessions self;
     circuit_breaker_enabled := circuit_breaker_enabled self;
     circuit_breaker_threshold := circuit_breaker_threshold self |}.

(** A file system in which every directory can be created, and one in
    which none can. *)
Definition permissive_os : OS :=
  {| FS := gset string;
     makedirs := fun path fs =>
       if String.eqb path "" then Raise (OSError "[Errno 2] No such file or directory: ''")
       else Ok ({[path]} ∪ fs) |}.

Definition readonly_os : OS :=
  {| FS := unit;
     makedirs := fun path _ =>
       Raise (OSError ("[Errno 13] Permission denied: '" +:+ path +:+ "'")) |}.

Definition worker_settings (gpu : float) : Settings :=
  Settings_override (Some "master:8000") "worker" 1 gpu example_settings.

(** Three nodes, of which A fails three times in a row. *)
Definition example_node (id : string) : Coordinator.Node :=
  {| Coordinator.node_id := id;
     Coordinator.address := "10.0.0.1:8000";
     Coordinator.role := "worker";
     Coordinator.model_name := "deepseek-coder";
     Coordinator.max_concurrency := 100;
     Coordinator.health := Coordinator.Healthy;
     Coordinator.last_heartbeat_timestamp := 0;
     Coordinator.consecutive_failure_count := 0 |}.

Definition example_config : Coordinator.Config :=
  {| Coordinator.failure_threshold := 3;
     Coordinator.rolling_window := 60;
     Coordinator.cooldown_duration := 30;
     Coordinator.unreachable_after := 3;
     Coordinator.eviction_timeout := 300;
     Coordinator.sticky_sessions := false |}.

Definition example_events : list Coordinator.Event :=
  [ Coordinator.EvRegister (example_node "A");
    Coordinator.EvRegister (example_node "B");
    Coordinator.EvRegister (example_node "C");
    Coordinator.EvRecordOutcome "A" false 1;
    Coordinator.EvRecordOutcome "A" false 2;
    Coordinator.EvRecordOutcome "A" false 3 ].

Definition example_context : Coordinator.RequestContext :=
  {| Coordinator.request_id := "req-0";
     Coordinator.arrival_time := 4;
     Coordinator.session_key := None;
     Coordinator.assigned_node := None;
     Coordinator.admission_ticket := None;
     Coordinator.cancelled := false |}.

(** ** Further definitions: reading JSON strings, streams that fail *)

(** No byte of the string is a control character (below 32). *)
Fixpoint no_control (s : string) : bool :=
  match s with
  | EmptyString => true
  | String c rest => negb (N_of_ascii c <? 32)%N && no_control rest
  end.

(** The value of a lower-case hexadecimal digit. *)
Definition hex_value (c : ascii) : option N :=
  let n := N_of_ascii c in
  if (48 <=? n)%N && (n <=? 57)%N then Some (n - 48)%N
  else if (97 <=? n)%N && (n <=? 102)%N then Some (n - 87)%N
  else None.

(** The character a two-character escape stands for. *)
Definition simple_escape (c : ascii) : option ascii :=
  let n := N_of_ascii c in
  if (n =? 34)%N then Some "034"%char
  else if (n =? 92)%N then Some "\"%char
  else if (n =? 110)%N then Some "010"%char
  else if (n =? 114)%N then Some "013"%char
  else if (n =? 116)%N then Some "009"%char
  else if (n =? 98)%N then Some "008"%char
  else if (n =? 102)%N then Some "012"%char
  else None.

Definition read_more (c : ascii) (r : option (string * string)) : option (string * string) :=
  match r with
  | Some (decoded, rest) => Some (String c decoded, rest)
  | None => None
  end.

(** A reader of the inside of a JSON string literal, as a client of the
    stream runs it: it undoes the escapes up to the closing quote and
    returns the text read and what follows the quote. *)
Fixpoint json_read (s : string) : option (string * string) :=
  match s with
  | EmptyString => None
  | String c rest =>
    if (N_of_ascii c =? 34)%N then Some (EmptyString, rest)
    else if (N_of_ascii c =? 92)%N then
      match rest with
      | String e rest' =>
        match simple_escape e with
        | Some d => read_more d (json_read rest')
        | None =>
          if (N_of_ascii e =? 117)%N then
            match rest' with
            | String z1 (String z2 (String h (String l rest''))) =>
              match hex_value z1, hex_value z2, hex_value h, hex_value l with
              | Some 0%N, Some 0%N, Some hi, Some lo =>
                read_more (ascii_of_N (16 * hi + lo)) (json_read rest'')
              | _, _, _, _ => None
              end
            | _ => None
            end
          else None
        end
      | EmptyString => None
      end
    else read_more c (json_read rest)
  end.

(** The engine stream that yields the given request outputs and then
    goes on as [tail]. *)
Definition stream_then (request_outputs : list RequestOutput) (tail : EngineStream)
  : EngineStream :=
  fold_right StreamYield tail request_outputs.

(** The event a chunk is sent as. *)
Definition chunk_event (request_id : string) (created : Z) (model : string)
  (output : CompletionOutput) : string :=
  sse_data (json_dumps_chunk (chunk_of request_id created model output)).

(** ** Further definitions: what a computation leaves alone *)

(** A computation that leaves the observation [f] of the world as it
    found it, however it ends. *)
Definition preserves {X A : Type} (f : World -> X) (m : M A) : Prop :=
  forall w : World, f (snd (m w)) = f w.

(** The keyword arguments [create_completion] passes to
    [SamplingParams], and the prompt it forwards. *)
Definition completion_kwargs (request : gmap string PyVal) : SamplingParams :=
  {| sp_temperature := dict_get request "temperature" (PyFloat 0.7%float);
     sp_top_p := None;
     sp_max_tokens := dict_get request "max_tokens" (PyInt 100);
     sp_stop := None |}.

Definition completion_prompt (request : gmap string PyVal) : PyVal :=
  dict_get request "prompt" (PyStr "").

(** How the [except] clause of [create_completion] ends on [e]. *)
Definition completion_failure (rt : Runtime) (e : exn) (w : World) : result TextCompletion * World :=
  if is_Exception e then
    (Raise (HTTPException 500 (str_exn rt e)),
     add_error_log ("文本完成请求失败: " +:+ str_exn rt e) w)
  else (Raise e, w).

(** The requests of a client that sends them one after the other through
    the middleware, each with the handler the router picks for it; the
    outcomes are collected. *)
Fixpoint run_requests {R : Type} (rt : Runtime)
  (requests : list (HttpRequest * (HttpRequest -> M R))) (w : World)
  : list (result R) * World :=
  match requests with
  | [] => ([], w)
  | (request, call_next) :: later =>
    let '(outcome, w1) := metrics_middleware rt request call_next w in
    let '(outcomes, w2) := run_requests rt later w1 in
    (outcome :: outcomes, w2)
  end.

(** The number of responses among outcomes. *)
Fixpoint responses {R : Type} (outcomes : list (result R)) : nat :=
  match outcomes with
  | [] => 0
  | Ok _ :: later => S (responses later)
  | Raise _ :: later => responses later
  end.

(** A runtime whose [SamplingParams] constructor rejects a [top_p] that
    is not above 0, as the constructor of vLLM does, and a request that
    asks for such a [top_p], which the request model allows. *)
Definition strict_runtime : Runtime :=
  {| time_time := time_time example_runtime;
     random_uuid := random_uuid example_runtime;
     SamplingParams_check := fun kwargs =>
       match sp_top_p kwargs with
       | Some (PyFloat p) =>
         if PrimFloat.leb p 0 then Some (ValueError "top_p must be in (0, 1], got 0.0.")
         else None
       | _ => None
       end;
     HTTPException_str := HTTPException_str example_runtime |}.

Definition zero_top_p_request (streaming : bool) : ChatCompletionRequest :=
  {| model := "deepseek-coder";
     messages := [ {| role := "user"; content := "Say hello" |} ];
     temperature := 0.7%float;
     max_tokens := 2048;
     top_p := 0%float;
     stream := streaming;
     stop := None |}.

(** An engine whose only request output holds no completion, and
    globals without a tokenizer. *)
Definition hollow_engine : AsyncLLMEngine :=
  {| generate := fun _ _ _ => StreamYield {| outputs := [] |} StreamEnd |}.

Definition globals_without_tokenizer : Globals :=
  {| settings := example_settings;
     llm_engine := Some hello_engine;
     tokenizer := None;
     cluster_manager := None |}.

(** The response [create_completion] builds from the output it kept. *)
Definition text_completion (request : gmap string PyVal) (request_id : string)
  (created : Z) (output : CompletionOutput) : TextCompletion :=
  {| completion_id := request_id;
     completion_object := "text_completion";
     completion_created := created;
     completion_model := dict_get request "model" (PyStr "deepseek-coder");
     completion_choices :=
       [ {| text_choice_text := text output;
            text_choice_index := 0;
            text_choice_finish_reason := finish_reason output |} ] |}.

(** A JSON body with a prompt and keys [create_completion] does not
    read. *)
Definition story_request : gmap string PyVal :=
  {[ "prompt" := PyStr "Once upon a time";
     "stream" := PyBool true;
     "top_p" := PyFloat 0.5%float;
     "stop" := PyList [PyStr "."] ]}.

(** The number of requests counted so far, all methods and paths
    together. *)
Definition total_count (counter : gmap (string * string) nat) : nat :=
  map_fold (fun _ n total => (n + total)%nat) 0%nat counter.

(** The two requests of the worked instance: one that is answered and
    one whose engine is dead. *)
Definition example_requests : list (HttpRequest * (HttpRequest -> M Response)) :=
  [ ({| method := "POST"; url_path := "/v1/chat/completions" |},
     fun _ => create_chat_completion example_runtime hello_globals (hello_request false));
    ({| method := "POST"; url_path := "/v1/chat/completions" |},
     fun _ => create_chat_completion example_runtime (globals_with (Some dead_engine))
                (hello_request false)) ].

(** The three messages of [_validate_config], and the condition of its
    first check. *)
Definition master_node_missing : exn :=
  ValueError "集群模式下工作节点必须指定主节点地址".

Definition tensor_parallel_invalid : exn :=
  ValueError "张量并行大小必须大于0".

Definition gpu_memory_invalid : exn :=
  ValueError "GPU内存利用率必须在0-1之间".

Definition worker_without_master (self : Settings) : bool :=
  cluster_enabled self && negb (truthy_opt_str (master_node self))
  && String.eqb (node_type self) "worker".

(** ** Start-up and shut-down ([main.py], [lifespan]) *)

(** The arguments [lifespan] builds the engine from. *)
Record AsyncEngineArgs : Type := {
  engine_model : string;
  engine_tokenizer : string;
  engine_tensor_parallel_size : Z;
  engine_dtype : string;
  engine_max_model_len : Z;
  engine_gpu_memory_utilization : float;
  engine_quantization : option string;
  engine_trust_remote_code : bool
}.

(** What [lifespan] calls: the constructors of the three managers (of
    [utils/], not modelled), the engine and tokenizer loaders, and the
    registration calls of the cluster manager. Each may raise. *)
Record Platform : Type := {
  ModelManager : Type;
  MetricsCollector : Type;
  new_ModelManager : Settings -> result ModelManager;
  new_ClusterManager : Settings -> result ClusterManager;
  new_MetricsCollector : Settings -> result MetricsCollector;
  from_engine_args : AsyncEngineArgs -> result AsyncLLMEngine;
  from_pretrained : string -> bool -> result Tokenizer;
  register_node : ClusterManager -> result unit;
  unregister_node : ClusterManager -> result unit
}.

Inductive ClusterCall : Type := RegisterNode | UnregisterNode.

Inductive LogLine : Type :=
| LogStarting                      (* info: the service starts *)
| LogLoading                       (* info: the model is being loaded *)
| LogLoaded (load_time : float)    (* info: the model was loaded, with the time it took *)
| LogStartupFailed (detail : string) (* error: start-up failed, with str of the exception *)
| LogClosing.                      (* info: the service shuts down *)

(** The module globals that [lifespan] assigns, the clock, the
    histogram of load times, the log and the calls made to the cluster
    manager. *)
Record Process (pf : Platform) : Type := {
  proc_model_manager : option (ModelManager pf);
  proc_cluster_manager : option ClusterManager;
  proc_metrics_collector : option (MetricsCollector pf);
  proc_llm_engine : option AsyncLLMEngine;
  proc_tokenizer : option Tokenizer;
  proc_clock_reads : nat;
  MODEL_LOAD_TIME : list float;
  proc_log : list LogLine;
  cluster_calls : list ClusterCall
}.
Arguments proc_model_manager {pf} _.
Arguments proc_cluster_manager {pf} _.
Arguments proc_metrics_collector {pf} _.
Arguments proc_llm_engine {pf} _.
Arguments proc_tokenizer {pf} _.
Arguments proc_clock_reads {pf} _.
Arguments MODEL_LOAD_TIME {pf} _.
Arguments proc_log {pf} _.
Arguments cluster_calls {pf} _.

(** A process in which nothing has been initialised. *)
Definition fresh_process (pf : Platform) : Process pf :=
  {| proc_model_manager := None; proc_cluster_manager := None;
     proc_metrics_collector := None; proc_llm_engine := None;
     proc_tokenizer := None; proc_clock_reads := 0; MODEL_LOAD_TIME := [];
     proc_log := []; cluster_calls := [] |}.

(** The globals the handlers see in a process. *)
Definition globals_of {pf : Platform} (s : Settings) (p : Process pf) : Globals :=
  {| settings := s;
     llm_engine := proc_llm_engine p;
     tokenizer := proc_tokenizer p;
     cluster_manager := proc_cluster_manager p |}.

Definition L (pf : Platform) (A : Type) : Type := Process pf -> result A * Process pf.

Definition lbind {pf : Platform} {A B : Type} (m : L pf A) (k : A -> L pf B) : L pf B :=
  fun p =>
    match m p with
    | (Ok a, p') => k a p'
    | (Raise e, p') => (Raise e, p')
    end.

Notation "'let+' x ':=' m 'in' k" := (lbind m (fun x => k))
  (at level 10, x name, m at level 100, k at level 200).

Definition lstep {pf : Platform} {A : Type} (r : result A) : L pf A := fun p => (r, p).

Definition lupdate {pf : Platform} (f : Process pf -> Process pf) : L pf unit :=
  fun p => (Ok tt, f p).

Definition set_model_manager {pf : Platform} (v : ModelManager pf) (p : Process pf)
  : Process pf :=
  {| proc_model_manager := Some v; proc_cluster_manager := proc_cluster_manager p;
     proc_metrics_collector := proc_metrics_collector p;
     proc_llm_engine := proc_llm_engine p; proc_tokenizer := proc_tokenizer p;
     proc_clock_reads := proc_clock_reads p; MODEL_LOAD_TIME := MODEL_LOAD_TIME p;
     proc_log := proc_log p; cluster_calls := cluster_calls p |}.

Definition set_cluster_manager {pf : Platform} (v : ClusterManager) (p : Process pf)
  : Process pf :=
  {| proc_model_manager := proc_model_manager p; proc_cluster_manager := Some v;
     proc_metrics_collector := proc_metrics_collector p;
     proc_llm_engine := proc_llm_engine p; proc_tokenizer := proc_tokenizer p;
     proc_clock_reads := proc_clock_reads p; MODEL_LOAD_TIME := MODEL_LOAD_TIME p;
     proc_log := proc_log p; cluster_calls := cluster_calls p |}.

Definition set_metrics_collector {pf : Platform} (v : MetricsCollector pf)
  (p : Process pf) : Process pf :=
  {| proc_model_manager := proc_model_manager p;
     proc_cluster_manager := proc_cluster_manager p;
     proc_metrics_collector := Some v;
     proc_llm_engine := proc_llm_engine p; proc_tokenizer := proc_tokenizer p;
     proc_clock_reads := proc_clock_reads p; MODEL_LOAD_TIME := MODEL_LOAD_TIME p;
     proc_log := proc_log p; cluster_calls := cluster_calls p |}.

Definition set_llm_engine {pf : Platform} (v : AsyncLLMEngine) (p : Process pf)
  : Process pf :=
  {| proc_model_manager := proc_model_manager p;
     proc_cluster_manager := proc_cluster_manager p;
     proc_metrics_collector := proc_metrics_collector p;
     proc_llm_engine := Some v; proc_tokenizer := proc_tokenizer p;
     proc_clock_reads := proc_clock_reads p; MODEL_LOAD_TIME := MODEL_LOAD_TIME p;
     proc_log := proc_log p; cluster_calls := cluster_calls p |}.

Definition set_tokenizer {pf : Platform} (v : Tokenizer) (p : Process pf)
  : Process pf :=
  {| proc_model_manager := proc_model_manager p;
     proc_cluster_manager := proc_cluster_manager p;
     proc_metrics_collector := proc_metrics_collector p;
     proc_llm_engine := proc_llm_engine p; proc_tokenizer := Some v;
     proc_clock_reads := proc_clock_reads p; MODEL_LOAD_TIME := MODEL_LOAD_TIME p;
     proc_log := proc_log p; cluster_calls := cluster_calls p |}.

Definition proc_tick {pf : Platform} (p : Process pf) : Process pf :=
  {| proc_model_manager := proc_model_manager p;
     proc_cluster_manager := proc_cluster_manager p;
     proc_metrics_collector := proc_metrics_collector p;
     proc_llm_engine := proc_llm_engine p; proc_tokenizer := proc_tokenizer p;
     proc_clock_reads := S (proc_clock_reads p); MODEL_LOAD_TIME := MODEL_LOAD_TIME p;
     proc_log := proc_log p; cluster_calls := cluster_calls p |}.

Definition observe_load_time {pf : Platform} (t : float) (p : Process pf) : Process pf :=
  {| proc_model_manager := proc_model_manager p;
     proc_cluster_manager := proc_cluster_manager p;
     proc_metrics_collector := proc_metrics_collector p;
     proc_llm_engine := proc_llm_engine p; proc_tokenizer := proc_tokenizer p;
     proc_clock_reads := proc_clock_reads p;
     MODEL_LOAD_TIME := MODEL_LOAD_TIME p ++ [t];
     proc_log := proc_log p; cluster_calls := cluster_calls p |}.

Definition add_log {pf : Platform} (line : LogLine) (p : Process pf) : Process pf :=
  {| proc_model_manager := proc_model_manager p;
     proc_cluster_manager := proc_cluster_manager p;
     proc_metrics_collector := proc_metrics_collector p;
     proc_llm_engine := proc_llm_engine p; proc_tokenizer := proc_tokenizer p;
     proc_clock_reads := proc_clock_reads p; MODEL_LOAD_TIME := MODEL_LOAD_TIME p;
     proc_log := proc_log p ++ [line]; cluster_calls := cluster_calls p |}.

Definition add_cluster_call {pf : Platform} (c : ClusterCall) (p : Process pf)
  : Process pf :=
  {| proc_model_manager := proc_model_manager p;
     proc_cluster_manager := proc_cluster_manager p;
     proc_metrics_collector := proc_metrics_collector p;
     proc_llm_engine := proc_llm_engine p; proc_tokenizer := proc_tokenizer p;
     proc_clock_reads := proc_clock_reads p; MODEL_LOAD_TIME := MODEL_LOAD_TIME p;
     proc_log := proc_log p; cluster_calls := cluster_calls p ++ [c] |}.

Definition proc_now {pf : Platform} (rt : Runtime) : L pf float :=
  fun p => (Ok (time_time rt (proc_clock_reads p)), proc_tick p).

Definition engine_args_of (s : Settings) : AsyncEngineArgs :=
  {| engine_model := model_path s;
     engine_tokenizer := model_path s;
     engine_tensor_parallel_size := tensor_parallel_size s;
     engine_dtype := model_dtype s;
     engine_max_model_len := max_model_len s;
     engine_gpu_memory_utilization := gpu_memory_utilization s;
     engine_quantization := quantization s;
     engine_trust_remote_code := true |}.

(** The body of the [try] of [lifespan], up to its [yield]. *)
Definition startup (pf : Platform) (rt : Runtime) (s : Settings) : L pf unit :=
  let+ mm := lstep (new_ModelManager pf s) in
  let+ _ := lupdate (set_model_manager mm) in
  let+ cm := lstep (new_ClusterManager pf s) in
  let+ _ := lupdate (set_cluster_manager cm) in
  let+ mc := lstep (new_MetricsCollector pf s) in
  let+ _ := lupdate (set_metrics_collector mc) in
  let+ start_time := proc_now rt in
  let+ _ := lupdate (add_log LogLoading) in
  let+ engine := lstep (from_engine_args pf (engine_args_of s)) in
  let+ _ := lupdate (set_llm_engine engine) in
  let+ tok := lstep (from_pretrained pf (model_path s) true) in
  let+ _ := lupdate (set_tokenizer tok) in
  let+ t := proc_now rt in
  let load_time := PrimFloat.sub t start_time in
  let+ _ := lupdate (observe_load_time load_time) in
  let+ _ := lupdate (add_log (LogLoaded load_time)) in
  let+ _ := lupdate (add_cluster_call RegisterNode) in
  lstep (register_node pf cm).

(** The [finally] of [lifespan]. A cluster manager, once created, is
    true. *)
Definition shutdown (pf : Platform) : L pf unit :=
  let+ _ := lupdate (add_log LogClosing) in
  fun p =>
    match proc_cluster_manager p with
    | Some cm => (unregister_node pf cm, add_cluster_call UnregisterNode p)
    | None => (Ok tt, p)
    end.

(** [lifespan]: [at_yield] is how the [yield] ends, normally when the
    application shuts down or with the exception thrown into the
    generator. The [except] clause logs and raises again; an exception
    of the [finally] replaces the pending one. *)
Definition lifespan (pf : Platform) (rt : Runtime) (s : Settings)
  (at_yield : result unit) : L pf unit :=
  fun p =>
    let p0 := add_log LogStarting p in
    let '(r, p1) := (let+ _ := startup pf rt s in lstep at_yield) p0 in
    let '(r, p2) :=
      match r with
      | Raise e =>
        if is_Exception e
        then (Raise e, add_log (LogStartupFailed (str_exn rt e)) p1)
        else (Raise e, p1)
      | Ok _ => (Ok tt, p1)
      end in
    match shutdown pf p2 with
    | (Ok _, p3) => (r, p3)
    | (Raise e, p3) => (Raise e, p3)
    end.

(** A platform on which everything loads, and one on which the engine
    cannot be loaded. *)
Definition example_platform : Platform :=
  {| ModelManager := unit;
     MetricsCollector := unit;
     new_ModelManager := fun _ => Ok tt;
     new_ClusterManager := fun _ => Ok {| get_status := "healthy" |};
     new_MetricsCollector := fun _ => Ok tt;
     from_engine_args := fun _ => Ok hello_engine;
     from_pretrained := fun _ _ => Ok byte_tokenizer;
     register_node := fun _ => Ok tt;
     unregister_node := fun _ => Ok tt |}.

Definition engineless_platform : Platform :=
  {| ModelManager := unit;
     MetricsCollector := unit;
     new_ModelManager := fun _ => Ok tt;
     new_ClusterManager := fun _ => Ok {| get_status := "healthy" |};
     new_MetricsCollector := fun _ => Ok tt;
     from_engine_args := fun _ => Raise (RuntimeError "CUDA out of memory");
     from_pretrained := fun _ _ => Ok byte_tokenizer;
     register_node := fun _ => Ok tt;
     unregister_node := fun _ => Ok tt |}.

(** An engine that produces two outputs and then dies. *)
Definition flaky_engine : AsyncLLMEngine :=
  {| generate := fun _ _ _ =>
       stream_then
         (map single [ {| text := "Hel"; finish_reason := None |};
                       {| text := "lo"; finish_reason := None |} ])
         (StreamRaise (RuntimeError "engine dead")) |}.

(** * Properties *)

(** ** Strings *)

Lemma string_app_cons (a : ascii) (s t : string) :
  String a s +:+ t = String a (s +:+ t).
Proof. reflexivity. Qed.

Lemma string_app_nil_r (s : string) : s +:+ "" = s.
Proof.
  induction s as [|a s IH]; [reflexivity|].
  now rewrite string_app_cons, IH.
Qed.

Lemma string_app_assoc (s1 s2 s3 : string) :
  (s1 +:+ s2) +:+ s3 = s1 +:+ (s2 +:+ s3).
Proof.
  induction s1 as [|a s1 IH]; [reflexivity|].
  now rewrite !string_app_cons, IH.
Qed.

(** ** The prompt format *)

Lemma format_step_line (formatted : string) (msg : ChatMessage) :
  format_step formatted msg = formatted +:+ message_line msg.
Proof.
  unfold format_step, message_line.
  destruct (String.eqb (role msg) "system"); [reflexivity|].
  destruct (String.eqb (role msg) "user"); [reflexivity|].
  destruct (String.eqb (role msg) "assistant"); [reflexivity|].
  now rewrite string_app_nil_r.
Qed.

(** The loop appends the lines of the messages, in their order, to what
    it started from. *)
Lemma format_loop_lines (messages : list ChatMessage) (formatted : string) :
  fold_left format_step messages formatted
  = formatted +:+ str_join (map message_line messages).
Proof.
  revert formatted.
  induction messages as [|msg messages IH]; intros formatted; simpl.
  - now rewrite string_app_nil_r.
  - rewrite IH, format_step_line. apply string_app_assoc.
Qed.

Lemma format_messages_refines (messages : list ChatMessage) :
  format_messages messages = format_messages_spec messages.
Proof.
  unfold format_messages, format_messages_spec.
  now rewrite format_loop_lines.
Qed.

Lemma message_line_cases (msg : ChatMessage) :
  (role msg = "system" -> message_line msg = "System: " +:+ content msg +:+ nl)
  /\ (role msg = "user" -> message_line msg = "User: " +:+ content msg +:+ nl)
  /\ (role msg = "assistant" -> message_line msg = "Assistant: " +:+ content msg +:+ nl)
  /\ (role msg <> "system" -> role msg <> "user" -> role msg <> "assistant" ->
      message_line msg = "").
Proof.
  unfold message_line.
  repeat split.
  - intros ->. reflexivity.
  - intros ->. reflexivity.
  - intros ->. reflexivity.
  - intros Hs Hu Ha.
    apply String.eqb_neq in Hs, Hu, Ha. now rewrite Hs, Hu, Ha.
Qed.

(** C10. For every list of chat messages, [format_messages] returns the
    concatenation, in input order, of one line per message: the content
    prefixed by System, User or Assistant and terminated by a line feed
    when the role is exactly system, user or assistant, and nothing for
    any other role; the result always ends with the suffix
    [Assistant: ], and the empty list yields exactly that suffix. *)
Theorem format_messages_lines (messages : list ChatMessage) :
  format_messages messages
  = str_join (map message_line messages) +:+ "Assistant: "
  /\ (forall msg : ChatMessage,
        (role msg = "system" -> message_line msg = "System: " +:+ content msg +:+ nl)
        /\ (role msg = "user" -> message_line msg = "User: " +:+ content msg +:+ nl)
        /\ (role msg = "assistant" ->
            message_line msg = "Assistant: " +:+ content msg +:+ nl)
        /\ (role msg <> "system" -> role msg <> "user" -> role msg <> "assistant" ->
            message_line msg = ""))
  /\ endswith (format_messages messages) "Assistant: "
  /\ format_messages [] = "Assistant: ".
Proof.
  split; [apply format_messages_refines|].
  split; [apply message_line_cases|].
  split; [|reflexivity].
  exists (fold_left format_step messages ""). reflexivity.
Qed.

Example format_messages_skips_unknown_roles :
  format_messages
    [ {| role := "system"; content := "Be brief." |};
      {| role := "tool"; content := "ignored" |};
      {| role := "user"; content := "Hi" |} ]
  = "System: Be brief." +:+ nl +:+ "User: Hi" +:+ nl +:+ "Assistant: ".
Proof. reflexivity. Qed.

(** ** The health check *)

Section Handlers.

Variable rt : Runtime.
Variable g : Globals.

(** C7. [health_check] always returns: the node id of the configuration;
    the uptime, which is the clock reading minus the configured start
    time; the model-loaded flag, true exactly when the engine global is
    set; the cluster manager's status (or [unknown] without a cluster
    manager); and a status that is [healthy] exactly when the flag is
    true and [loading] otherwise. *)
Theorem health_check_reports (w : World) :
  exists h : HealthResponse,
    fst (health_check rt g w) = Ok h
    /\ health_node_id h = node_id (settings g)
    /\ health_uptime h
       = PrimFloat.sub (time_time rt (clock_reads w)) (start_time (settings g))
    /\ (health_model_loaded h = true <-> exists engine, llm_engine g = Some engine)
    /\ health_cluster_status h
       = match cluster_manager g with
         | Some cm => get_status cm
         | None => "unknown"
         end
    /\ (health_status h = "healthy" <-> health_model_loaded h = true)
    /\ (health_model_loaded h = false -> health_status h = "loading").
Proof.
  eexists. split; [reflexivity|]. simpl.
  repeat split; try reflexivity.
  - destruct (llm_engine g) as [engine|]; [eauto | discriminate].
  - intros [engine ->]. reflexivity.
  - destruct (llm_engine g); [reflexivity | discriminate].
  - destruct (llm_engine g); [reflexivity | discriminate].
  - destruct (llm_engine g); [discriminate | reflexivity].
Qed.

(** ** Requests before the engine is loaded *)

(** C9. Without an engine, the chat-completion and the text-completion
    handlers raise the 503 error at once: the outcome does not depend on
    the request, and the world is unchanged, so no sampling parameters
    were built, no request id was drawn and no generation was
    requested. *)
Theorem no_engine_is_unavailable (Hengine : llm_engine g = None) :
  (forall (request : ChatCompletionRequest) (w : World),
      create_chat_completion rt g request w
      = (Raise (HTTPException 503 "模型尚未加载完成"), w))
  /\ (forall (request : gmap string PyVal) (w : World),
        create_completion rt g request w
        = (Raise (HTTPException 503 "模型尚未加载完成"), w)).
Proof.
  unfold create_chat_completion, create_completion.
  rewrite Hengine. split; reflexivity.
Qed.

End Handlers.

(** ** The gauge of active requests *)

Lemma keeps_gauge_ret {A : Type} (a : A) : keeps_gauge (ret a).
Proof. intros w. reflexivity. Qed.

Lemma keeps_gauge_raise {A : Type} (e : exn) : keeps_gauge (@raise A e).
Proof. intros w. reflexivity. Qed.

Lemma keeps_gauge_lift {A : Type} (r : result A) : keeps_gauge (lift r).
Proof. intros w. reflexivity. Qed.

Lemma keeps_gauge_call (c : Call) : keeps_gauge (call c).
Proof. intros w. reflexivity. Qed.

Lemma keeps_gauge_now (rt : Runtime) : keeps_gauge (now rt).
Proof. intros w. reflexivity. Qed.

Lemma keeps_gauge_draw_uuid (rt : Runtime) : keeps_gauge (draw_uuid rt).
Proof. intros w. reflexivity. Qed.

Lemma keeps_gauge_logger_error (line : string) : keeps_gauge (logger_error line).
Proof. intros w. reflexivity. Qed.

Lemma keeps_gauge_bind {A B : Type} (m : M A) (k : A -> M B) :
  keeps_gauge m -> (forall a, keeps_gauge (k a)) -> keeps_gauge (bind m k).
Proof.
  intros Hm Hk w. unfold bind.
  specialize (Hm w). destruct (m w) as [[a|e] w']; simpl in *.
  - now rewrite Hk.
  - exact Hm.
Qed.

Lemma keeps_gauge_try_except {A : Type} (body : M A) (handler : exn -> M A) :
  keeps_gauge body -> (forall e, keeps_gauge (handler e)) ->
  keeps_gauge (try_except body handler).
Proof.
  intros Hb Hh w. unfold try_except.
  specialize (Hb w). destruct (body w) as [[a|e] w']; simpl in *; [exact Hb|].
  destruct (is_Exception e); simpl; [now rewrite Hh | exact Hb].
Qed.

Create HintDb gauge.

#[local] Hint Resolve keeps_gauge_ret keeps_gauge_raise keeps_gauge_lift
  keeps_gauge_call keeps_gauge_now keeps_gauge_draw_uuid
  keeps_gauge_logger_error : gauge.

Ltac gauge :=
  repeat first
    [ apply keeps_gauge_bind; [|intros ?]
    | apply keeps_gauge_try_except; [|intros ?]
    | solve [auto with gauge]
    | match goal with
      | |- keeps_gauge (match ?x with _ => _ end) => destruct x
      | |- keeps_gauge (if ?b then _ else _) => destruct b
      end ].

Lemma keeps_gauge_new_SamplingParams (rt : Runtime) (kwargs : SamplingParams) :
  keeps_gauge (new_SamplingParams rt kwargs).
Proof. unfold new_SamplingParams. gauge. Qed.

Lemma keeps_gauge_generate_chat_completion (rt : Runtime) (g : Globals)
  (prompt : string) (sp : SamplingParams) (request_id model : string) :
  keeps_gauge (generate_chat_completion rt g prompt sp request_id model).
Proof. unfold generate_chat_completion. gauge. Qed.

Lemma keeps_gauge_create_chat_completion (rt : Runtime) (g : Globals)
  (request : ChatCompletionRequest) :
  keeps_gauge (create_chat_completion rt g request).
Proof.
  unfold create_chat_completion.
  pose proof keeps_gauge_new_SamplingParams.
  pose proof keeps_gauge_generate_chat_completion.
  gauge.
Qed.

Lemma keeps_gauge_create_completion (rt : Runtime) (g : Globals)
  (request : gmap string PyVal) :
  keeps_gauge (create_completion rt g request).
Proof.
  unfold create_completion.
  pose proof keeps_gauge_new_SamplingParams.
  gauge.
Qed.

Lemma keeps_gauge_health_check (rt : Runtime) (g : Globals) :
  keeps_gauge (health_check rt g).
Proof. unfold health_check. gauge. Qed.

(** C5. Around every downstream handler, whatever its outcome (a
    response, an exception, a cancellation or a timeout raised through
    it), the middleware increments the gauge of active requests once
    before the handler runs and decrements it once after, passes the
    outcome on unchanged, and so leaves the gauge at its prior value. *)
Theorem metrics_middleware_releases {R : Type} (rt : Runtime)
  (request : HttpRequest) (call_next : HttpRequest -> M R) (w : World)
  (Hnext : keeps_gauge (call_next request)) :
  let entered := set_ACTIVE_REQUESTS Z.succ (tick_clock w) in
  let after := snd (call_next request entered) in
  ACTIVE_REQUESTS entered = ACTIVE_REQUESTS w + 1
  /\ fst (metrics_middleware rt request call_next w) = fst (call_next request entered)
  /\ ACTIVE_REQUESTS (snd (metrics_middleware rt request call_next w))
     = ACTIVE_REQUESTS after - 1
  /\ ACTIVE_REQUESTS (snd (metrics_middleware rt request call_next w))
     = ACTIVE_REQUESTS w.
Proof.
  intros entered after.
  assert (Hafter : ACTIVE_REQUESTS after = ACTIVE_REQUESTS w + 1).
  { unfold after. rewrite Hnext. unfold entered. simpl. lia. }
  assert (Hmw :
    metrics_middleware rt request call_next w
    = (fst (call_next request entered),
       set_ACTIVE_REQUESTS Z.pred
         (REQUEST_DURATION_observe
            (PrimFloat.sub
               (time_time rt
                  (clock_reads
                     (match fst (call_next request entered) with
                      | Ok _ => REQUEST_COUNT_inc (method request) (url_path request) after
                      | Raise _ => after
                      end)))
               (time_time rt (clock_reads w)))
            (tick_clock
               (match fst (call_next request entered) with
                | Ok _ => REQUEST_COUNT_inc (method request) (url_path request) after
                | Raise _ => after
                end))))).
  { unfold metrics_middleware, bind, try_finally, now, ret. simpl.
    fold entered. unfold after.
    destruct (call_next request entered) as [[response|e] w']; reflexivity. }
  rewrite Hmw. simpl.
  split; [unfold entered; simpl; lia|].
  split; [reflexivity|].
  assert (Hcount :
    ACTIVE_REQUESTS
      (match fst (call_next request entered) with
       | Ok _ => REQUEST_COUNT_inc (method request) (url_path request) after
       | Raise _ => after
       end) = ACTIVE_REQUESTS after).
  { destruct (fst (call_next request entered)); reflexivity. }
  rewrite Hcount. split; lia.
Qed.

(** ** Non-streaming generation *)

Section Generation.

Variable rt : Runtime.
Variable g : Globals.

(** [generate_chat_completion], path by path. *)
Lemma generate_chat_completion_paths (engine : AsyncLLMEngine)
  (prompt : string) (sp : SamplingParams) (request_id model : string) (w : World) :
  llm_engine g = Some engine ->
  generate_chat_completion rt g prompt sp request_id model w
  = let w1 := add_call (CallGenerate (PyStr prompt) sp request_id) (tick_clock w) in
    match last_output (generate engine (PyStr prompt) sp request_id) None with
    | Raise e => (Raise e, w1)
    | Ok None => (Raise (HTTPException 500 "推理失败"), w1)
    | Ok (Some final_output) =>
      match outputs final_output with
      | [] => (Raise (IndexError "list index out of range"), w1)
      | output :: _ =>
        match tokenizer g with
        | None =>
          (Raise (AttributeError "'NoneType' object has no attribute 'encode'"), w1)
        | Some tok =>
          let w3 := add_call (CallEncode (text output)) (add_call (CallEncode prompt) w1) in
          match int_of_float (time_time rt (clock_reads w)) with
          | Raise e => (Raise e, w3)
          | Ok created =>
            (Ok (chat_response request_id created model tok prompt output), w3)
          end
        end
      end
    end.
Proof.
  intros Hengine.
  unfold generate_chat_completion, bind, now, lift, call, raise, ret.
  rewrite Hengine. simpl.
  destruct (last_output _ None) as [[final_output|]|e]; try reflexivity.
  destruct (outputs final_output) as [|output rest]; simpl; [reflexivity|].
  destruct (tokenizer g) as [tok|]; simpl; [|reflexivity].
  destruct (int_of_float _) as [created|e]; reflexivity.
Qed.

(** A non-streaming request whose sampling parameters are accepted
    ends as [generate_chat_completion] does, exceptions being turned
    into the 500 error. *)
Lemma create_chat_completion_buffered (engine : AsyncLLMEngine)
  (request : ChatCompletionRequest) (w : World) :
  llm_engine g = Some engine ->
  stream request = false ->
  SamplingParams_check rt (chat_kwargs request) = None ->
  create_chat_completion rt g request w
  = match generate_chat_completion rt g (format_messages (messages request))
            (chat_kwargs request) (random_uuid rt (uuids_drawn w)) (model request)
            (prepared request w) with
    | (Ok body, w') => (Ok (JSONResponse body), w')
    | (Raise e, w') =>
      if is_Exception e then
        (Raise (HTTPException 500 (str_exn rt e)),
         add_error_log ("聊天完成请求失败: " +:+ str_exn rt e) w')
      else (Raise e, w')
    end.
Proof.
  intros Hengine Hstream Hcheck.
  unfold create_chat_completion. rewrite Hengine.
  unfold try_except, new_SamplingParams, draw_uuid.
  fold (chat_kwargs request).
  unfold bind at 1 2 3. unfold call at 1.
  rewrite Hcheck, Hstream. unfold ret at 1. simpl uuids_drawn.
  fold (prepared request w).
  unfold bind at 1.
  destruct (generate_chat_completion _ _ _ _ _ _ _) as [[body|e] w']; [reflexivity|].
  destruct (is_Exception e); reflexivity.
Qed.

End Generation.

Section Accounting.

Variable rt : Runtime.
Variable g : Globals.

(** A handler that answered with a JSON body had an engine, was not
    asked to stream, and built its sampling parameters. *)
Lemma create_chat_completion_json_inv (request : ChatCompletionRequest)
  (w w' : World) (body : ChatCompletionResponse) :
  create_chat_completion rt g request w = (Ok (JSONResponse body), w') ->
  (exists engine, llm_engine g = Some engine)
  /\ stream request = false
  /\ SamplingParams_check rt (chat_kwargs request) = None.
Proof.
  unfold create_chat_completion.
  destruct (llm_engine g) as [engine|]; [|discriminate].
  unfold try_except, new_SamplingParams, draw_uuid.
  fold (chat_kwargs request).
  unfold bind at 1 2 3. unfold call at 1.
  destruct (SamplingParams_check rt (chat_kwargs request)) as [e|] eqn:Hcheck.
  - unfold raise at 1. destruct (is_Exception e); discriminate.
  - unfold ret at 1. destruct (stream request) eqn:Hstream.
    + unfold ret at 1. discriminate.
    + intros _. eauto.
Qed.

(** C2, as the code has it. When a non-streaming chat completion
    succeeds, the engine stream ended after at least one request output,
    and the generated text of the response is the text of the first
    completion of the last request output: the texts of earlier request
    outputs are not part of it. The usage holds the number of tokens of
    the formatted prompt, the number of tokens of that generated text,
    and their sum, all counted by the one loaded tokenizer, which was
    called exactly twice for the request, once on the prompt and once on
    that text, after the generation request. *)
Theorem usage_counts_last_output (request : ChatCompletionRequest)
  (w w' : World) (body : ChatCompletionResponse)
  (Hok : create_chat_completion rt g request w = (Ok (JSONResponse body), w')) :
  exists (engine : AsyncLLMEngine) (tok : Tokenizer)
         (final_output : RequestOutput) (output : CompletionOutput),
    let prompt := format_messages (messages request) in
    let request_id := random_uuid rt (uuids_drawn w) in
    llm_engine g = Some engine
    /\ tokenizer g = Some tok
    /\ last_output (generate engine (PyStr prompt) (chat_kwargs request) request_id) None
       = Ok (Some final_output)
    /\ head (outputs final_output) = Some output
    /\ choices body
       = [ {| choice_index := 0;
              choice_message := {| role := "assistant"; content := text output |};
              choice_finish_reason := finish_reason output |} ]
    /\ prompt_tokens (usage body) = Z.of_nat (length (tokenizer_encode tok prompt))
    /\ completion_tokens (usage body)
       = Z.of_nat (length (tokenizer_encode tok (text output)))
    /\ total_tokens (usage body)
       = prompt_tokens (usage body) + completion_tokens (usage body)
    /\ calls w'
       = calls w
         ++ [ CallSamplingParams (chat_kwargs request);
              CallRandomUuid;
              CallGenerate (PyStr prompt) (chat_kwargs request) request_id;
              CallEncode prompt;
              CallEncode (text output) ].
Proof.
  destruct (create_chat_completion_json_inv _ _ _ _ Hok)
    as ([engine Hengine] & Hstream & Hcheck).
  rewrite (create_chat_completion_buffered rt g engine) in Hok by assumption.
  rewrite (generate_chat_completion_paths rt g engine) in Hok by assumption.
  cbv zeta in Hok.
  destruct (last_output _ None) as [[final_output|]|e] eqn:Hlast;
    [| simpl in Hok; discriminate
     | destruct (is_Exception e); discriminate].
  destruct (outputs final_output) as [|output rest] eqn:Houtputs;
    [simpl in Hok; discriminate|].
  destruct (tokenizer g) as [tok|]; [|simpl in Hok; discriminate].
  destruct (int_of_float _) as [created|e];
    [|destruct (is_Exception e); discriminate].
  injection Hok as <- <-.
  exists engine, tok, final_output, output. cbv zeta.
  split; [exact Hengine|]. split; [reflexivity|]. split; [exact Hlast|].
  split; [now rewrite Houtputs|].
  repeat split. simpl.
  rewrite <- !app_assoc. reflexivity.
Qed.

End Accounting.

(** ** Streaming and non-streaming generation *)

Lemma last_output_stream_of (earlier : list RequestOutput) (final : RequestOutput)
  (kept : option RequestOutput) :
  last_output (stream_of (earlier ++ [final])) kept = Ok (Some final).
Proof.
  revert kept.
  induction earlier as [|r earlier IH]; intros kept; simpl; [reflexivity|].
  apply IH.
Qed.

Lemma last_output_stream_of_nil (kept : option RequestOutput) :
  last_output (stream_of []) kept = Ok kept.
Proof. reflexivity. Qed.

Lemma stream_loop_stream_of (request_id model : string) (start_time : float)
  (created : Z) (outs : list CompletionOutput) :
  int_of_float start_time = Ok created ->
  stream_loop request_id start_time model (stream_of (map single outs))
  = {| yielded :=
         map (fun o => sse_data (json_dumps_chunk (chunk_of request_id created model o))) outs
         ++ [sse_data "[DONE]"];
       raised := None |}.
Proof.
  intros Hcreated.
  induction outs as [|o outs IH]; [reflexivity|].
  change (stream_of (map single (o :: outs)))
    with (StreamYield (single o) (stream_of (map single outs))).
  cbn [stream_loop single outputs list_index0].
  rewrite Hcreated, IH. reflexivity.
Qed.

(** Once the engine stream fails, the loop of the streaming generator
    ends with an exception and the end marker is never sent. *)
Lemma stream_loop_failure (request_id model : string) (start_time : float)
  (results : EngineStream) (kept : option RequestOutput) (e : exn) :
  last_output results kept = Raise e ->
  exists e', raised (stream_loop request_id start_time model results) = Some e'
             /\ ~ In (sse_data "[DONE]")
                  (yielded (stream_loop request_id start_time model results)).
Proof.
  revert kept.
  induction results as [|r rest IH|e0]; intros kept Hlast; simpl in *.
  - discriminate.
  - destruct (list_index0 (outputs r)) as [output|e1]; [|simpl; eauto].
    destruct (int_of_float start_time) as [created|e1]; [|simpl; eauto].
    destruct (IH _ Hlast) as (e' & Hraised & Hdone).
    exists e'. simpl. split; [exact Hraised|].
    intros [Heq|Hin]; [|exact (Hdone Hin)].
    unfold sse_data in Heq.
    apply (f_equal (fun s => String.get 6 s)) in Heq.
    unfold json_dumps_chunk in Heq. simpl in Heq. discriminate.
  - eexists. split; [reflexivity|]. simpl. tauto.
Qed.

Section Lifecycle.

Variable rt : Runtime.
Variable g : Globals.

(** C1, as the code has it. When the engine stream yields the request
    outputs [earlier ++ [final]] and ends, the streaming generator
    yields one chunk per request output, in order, whose delta is that
    output's text and whose finish reason is that output's, and then
    the end marker; for the same input the non-streaming path returns
    the text and the finish reason of the final request output alone.
    Both therefore report the same finish reason, and the text of the
    non-streaming response is the delta of the last streamed chunk. *)
Theorem streaming_and_buffered_outputs
  (engine : AsyncLLMEngine) (tok : Tokenizer)
  (prompt : string) (sp : SamplingParams) (request_id model : string) (w : World)
  (earlier : list CompletionOutput) (final : CompletionOutput) (created : Z)
  (Hengine : llm_engine g = Some engine)
  (Htokenizer : tokenizer g = Some tok)
  (Hstream : generate engine (PyStr prompt) sp request_id
             = stream_of (map single (earlier ++ [final])))
  (Hclock : int_of_float (time_time rt (clock_reads w)) = Ok created) :
  (exists chunks : list Chunk,
      fst (stream_chat_completion rt g prompt sp request_id model w)
      = {| yielded := map (fun c => sse_data (json_dumps_chunk c)) chunks
                      ++ [sse_data "[DONE]"];
           raised := None |}
      /\ map chunk_choices chunks
         = map (fun o => [ {| chunk_choice_index := 0;
                              delta_content := text o;
                              chunk_finish_reason := finish_reason o |} ])
               (earlier ++ [final]))
  /\ (exists body : ChatCompletionResponse,
        fst (generate_chat_completion rt g prompt sp request_id model w) = Ok body
        /\ choices body
           = [ {| choice_index := 0;
                  choice_message := {| role := "assistant"; content := text final |};
                  choice_finish_reason := finish_reason final |} ]).
Proof.
  split.
  - exists (map (chunk_of request_id created model) (earlier ++ [final])).
    split.
    + unfold stream_chat_completion. rewrite Hengine. simpl.
      rewrite Hstream, (stream_loop_stream_of _ _ _ created) by assumption.
      now rewrite map_map.
    + now rewrite map_map.
  - exists (chat_response request_id created model tok prompt final).
    split; [|reflexivity].
    rewrite (generate_chat_completion_paths rt g engine) by assumption.
    cbv zeta. rewrite Hstream, map_app. simpl map.
    rewrite last_output_stream_of. simpl outputs.
    rewrite Htokenizer, Hclock. reflexivity.
Qed.

End Lifecycle.

(** ** A worked instance: the fragments Hel, lo, ! *)

(** C1 fails as stated. On the engine stream Hel, lo, ! (the last
    with finish reason stop) the streaming path does yield the three
    fragments in order and then the end marker, so the caller of the
    stream assembles Hello!; the non-streaming path returns the
    last fragment alone, the text ! and not Hello!, with finish
    reason stop. *)
Lemma hello_not_concatenated :
  fst (stream_chat_completion example_runtime hello_globals "User: Say hello"
         (chat_kwargs (hello_request true)) "req-0" "deepseek-coder" idle_world)
  = {| yielded := map (fun c => sse_data (json_dumps_chunk c)) (map hello_chunk hello_outputs)
                  ++ [sse_data "[DONE]"];
       raised := None |}
  /\ str_join (map text hello_outputs) = "Hello!"
  /\ exists body : ChatCompletionResponse,
       fst (generate_chat_completion example_runtime hello_globals "User: Say hello"
              (chat_kwargs (hello_request false)) "req-0" "deepseek-coder" idle_world)
       = Ok body
       /\ choices body
          = [ {| choice_index := 0;
                 choice_message := {| role := "assistant"; content := "!" |};
                 choice_finish_reason := Some "stop" |} ]
       /\ map (fun c => content (choice_message c)) (choices body) <> ["Hello!"].
Proof.
  split; [vm_compute; reflexivity|].
  split; [reflexivity|].
  eexists. split; [vm_compute; reflexivity|].
  split; [reflexivity|]. simpl. discriminate.
Qed.

Lemma streaming_and_buffered_outputs_witness :
  (exists chunks : list Chunk,
      fst (stream_chat_completion example_runtime hello_globals "User: Say hello"
             (chat_kwargs (hello_request true)) "req-0" "deepseek-coder" idle_world)
      = {| yielded := map (fun c => sse_data (json_dumps_chunk c)) chunks
                      ++ [sse_data "[DONE]"];
           raised := None |}
      /\ map chunk_choices chunks
         = map (fun o => [ {| chunk_choice_index := 0;
                              delta_content := text o;
                              chunk_finish_reason := finish_reason o |} ])
               hello_outputs)
  /\ (exists body : ChatCompletionResponse,
        fst (generate_chat_completion example_runtime hello_globals "User: Say hello"
               (chat_kwargs (hello_request true)) "req-0" "deepseek-coder" idle_world)
        = Ok body
        /\ choices body
           = [ {| choice_index := 0;
                  choice_message := {| role := "assistant"; content := "!" |};
                  choice_finish_reason := Some "stop" |} ]).
Proof.
  apply (streaming_and_buffered_outputs example_runtime hello_globals
           hello_engine byte_tokenizer "User: Say hello"
           (chat_kwargs (hello_request true)) "req-0" "deepseek-coder" idle_world
           [ {| text := "Hel"; finish_reason := None |};
             {| text := "lo"; finish_reason := None |} ]
           {| text := "!"; finish_reason := Some "stop" |} 1700000000);
    reflexivity.
Defined.

Lemma usage_counts_last_output_witness :
  create_chat_completion example_runtime hello_globals (hello_request false) idle_world
  = (Ok (JSONResponse hello_body), hello_world_after)
  /\ exists (engine : AsyncLLMEngine) (tok : Tokenizer)
            (final_output : RequestOutput) (output : CompletionOutput),
       let prompt := format_messages (messages (hello_request false)) in
       let request_id := random_uuid example_runtime (uuids_drawn idle_world) in
       llm_engine hello_globals = Some engine
       /\ tokenizer hello_globals = Some tok
       /\ last_output
            (generate engine (PyStr prompt) (chat_kwargs (hello_request false)) request_id)
            None
          = Ok (Some final_output)
       /\ head (outputs final_output) = Some output
       /\ choices hello_body
          = [ {| choice_index := 0;
                 choice_message := {| role := "assistant"; content := text output |};
                 choice_finish_reason := finish_reason output |} ]
       /\ prompt_tokens (usage hello_body)
          = Z.of_nat (length (tokenizer_encode tok prompt))
       /\ completion_tokens (usage hello_body)
          = Z.of_nat (length (tokenizer_encode tok (text output)))
       /\ total_tokens (usage hello_body)
          = prompt_tokens (usage hello_body) + completion_tokens (usage hello_body)
       /\ calls hello_world_after
          = calls idle_world
            ++ [ CallSamplingParams (chat_kwargs (hello_request false));
                 CallRandomUuid;
                 CallGenerate (PyStr prompt) (chat_kwargs (hello_request false)) request_id;
                 CallEncode prompt;
                 CallEncode (text output) ].
Proof.
  split; [vm_compute; reflexivity|].
  apply (usage_counts_last_output example_runtime hello_globals (hello_request false)
           idle_world hello_world_after hello_body).
  vm_compute. reflexivity.
Defined.

(** C2 fails as stated. On the engine stream Hel, lo, ! the whole
    generated text is Hello!, six tokens for the tokenizer that
    counts bytes, and the fragments hold three, two and one tokens; the
    usage of the non-streaming response counts one completion token, the
    token of the last request output alone. *)
Lemma usage_counts_last_fragment_only :
  fst (create_chat_completion example_runtime hello_globals (hello_request false)
         idle_world)
  = Ok (JSONResponse hello_body)
  /\ completion_tokens (usage hello_body) = 1
  /\ str_join (map text hello_outputs) = "Hello!"
  /\ Z.of_nat (length (tokenizer_encode byte_tokenizer (str_join (map text hello_outputs))))
     = 6
  /\ map (fun o => Z.of_nat (length (tokenizer_encode byte_tokenizer (text o))))
       hello_outputs
     = [3; 2; 1]
  /\ completion_tokens (usage hello_body)
     <> Z.of_nat (length (tokenizer_encode byte_tokenizer
                            (str_join (map text hello_outputs)))).
Proof.
  split; [vm_compute; reflexivity|].
  split; [reflexivity|]. split; [reflexivity|]. split; [reflexivity|].
  split; [reflexivity|]. vm_compute. discriminate.
Qed.

Example hello_usage :
  usage hello_body
  = {| prompt_tokens := 27; completion_tokens := 1; total_tokens := 28 |}.
Proof. reflexivity. Qed.

(** ** Engine failures *)

Section Failures.

Variable rt : Runtime.
Variable g : Globals.

(** With an engine loaded the handler never raises the 503 error: what
    it raises is the 500 error, or something that is not an
    [Exception] and passed through [except Exception]. *)
Lemma create_chat_completion_raises (engine : AsyncLLMEngine)
  (request : ChatCompletionRequest) (w : World) (e : exn) :
  llm_engine g = Some engine ->
  fst (create_chat_completion rt g request w) = Raise e ->
  (exists detail, e = HTTPException 500 detail) \/ is_Exception e = false.
Proof.
  intros Hengine. unfold create_chat_completion. rewrite Hengine.
  unfold try_except.
  match goal with |- context [match ?body w with _ => _ end] => destruct (body w) as [[r|e0] w'] end.
  - discriminate.
  - destruct (is_Exception e0) eqn:Hexc; simpl.
    + intros [= <-]. left. eauto.
    + intros [= <-]. right. exact Hexc.
Qed.

(** A streaming request whose sampling parameters are accepted is
    answered before anything is generated. *)
Lemma create_chat_completion_streaming (engine : AsyncLLMEngine)
  (request : ChatCompletionRequest) (w : World) :
  llm_engine g = Some engine ->
  stream request = true ->
  SamplingParams_check rt (chat_kwargs request) = None ->
  create_chat_completion rt g request w
  = (Ok (StreamingResponse
           (stream_chat_completion rt g (format_messages (messages request))
              (chat_kwargs request) (random_uuid rt (uuids_drawn w)) (model request))
           "text/plain"),
     prepared request w).
Proof.
  intros Hengine Hstream Hcheck.
  unfold create_chat_completion. rewrite Hengine.
  unfold try_except, new_SamplingParams, draw_uuid.
  fold (chat_kwargs request).
  unfold bind at 1 2 3. unfold call at 1.
  rewrite Hcheck, Hstream. reflexivity.
Qed.

Lemma stream_chat_completion_run (engine : AsyncLLMEngine)
  (prompt : string) (sp : SamplingParams) (request_id model : string) (w : World) :
  llm_engine g = Some engine ->
  fst (stream_chat_completion rt g prompt sp request_id model w)
  = stream_loop request_id (time_time rt (clock_reads w)) model
      (generate engine (PyStr prompt) sp request_id).
Proof.
  intros Hengine. unfold stream_chat_completion. rewrite Hengine. reflexivity.
Qed.

(** What iterating the body of a streaming response produces when the
    generation fails or is empty: a failure of the engine ends the
    iteration with an exception before the end marker, and a generation
    without output yields the end marker alone. *)
Lemma streaming_body_outcomes (engine : AsyncLLMEngine)
  (prompt : string) (sp : SamplingParams) (request_id model : string) (w : World) :
  llm_engine g = Some engine ->
  let body := stream_chat_completion rt g prompt sp request_id model in
  let results := generate engine (PyStr prompt) sp request_id in
  (forall e, last_output results None = Raise e ->
     exists e', raised (fst (body w)) = Some e'
                /\ ~ In (sse_data "[DONE]") (yielded (fst (body w))))
  /\ (results = StreamEnd ->
      fst (body w) = {| yielded := [sse_data "[DONE]"]; raised := None |}).
Proof.
  intros Hengine body results. unfold body.
  rewrite (stream_chat_completion_run engine) by assumption.
  fold results. split.
  - intros e Hlast. exact (stream_loop_failure _ _ _ _ _ _ Hlast).
  - intros ->. reflexivity.
Qed.

(** C6, as the code has it. Take a chat-completion request whose
    sampling parameters are accepted, with an engine loaded. If it is
    not a streaming request and the generation raises an exception, or
    ends without any output, the handler raises the 500 error whose
    detail is [str] of that failure, never the 503 error. If it is a
    streaming request, the handler returns the streaming response
    before any generation is requested: it has only built the
    sampling parameters and drawn the request id. *)
Theorem engine_failure_outcomes (engine : AsyncLLMEngine)
  (request : ChatCompletionRequest) (w : World)
  (Hengine : llm_engine g = Some engine)
  (Hcheck : SamplingParams_check rt (chat_kwargs request) = None) :
  let prompt := format_messages (messages request) in
  let request_id := random_uuid rt (uuids_drawn w) in
  let results := generate engine (PyStr prompt) (chat_kwargs request) request_id in
  (stream request = false ->
     (forall e, last_output results None = Raise e -> is_Exception e = true ->
        fst (create_chat_completion rt g request w)
        = Raise (HTTPException 500 (str_exn rt e)))
     /\ (last_output results None = Ok None ->
         fst (create_chat_completion rt g request w)
         = Raise (HTTPException 500 (str_exn rt (HTTPException 500 "推理失败"))))
     /\ (forall detail,
           fst (create_chat_completion rt g request w)
           <> Raise (HTTPException 503 detail)))
  /\ (stream request = true ->
      exists w' : World,
        create_chat_completion rt g request w
        = (Ok (StreamingResponse
                 (stream_chat_completion rt g prompt (chat_kwargs request) request_id
                    (model request))
                 "text/plain"), w')
        /\ calls w'
           = calls w ++ [CallSamplingParams (chat_kwargs request); CallRandomUuid]).
Proof.
  intros prompt request_id results. split.
  - intros Hstream.
    pose proof (create_chat_completion_buffered rt g engine request w
                  Hengine Hstream Hcheck) as Heq.
    rewrite (generate_chat_completion_paths rt g engine) in Heq by assumption.
    cbv zeta in Heq. fold prompt request_id results in Heq.
    repeat split.
    + intros e Hlast Hexc. rewrite Heq, Hlast, Hexc. reflexivity.
    + intros Hlast. rewrite Heq, Hlast. reflexivity.
    + intros detail Hraise.
      destruct (create_chat_completion_raises engine request w _ Hengine Hraise)
        as [[d Hd] | Hexc]; discriminate.
  - intros Hstream. exists (prepared request w). split.
    + apply (create_chat_completion_streaming engine); assumption.
    + simpl. now rewrite <- app_assoc.
Qed.

End Failures.

(** C6 fails as stated for streaming requests. With an engine that
    raises as soon as it is iterated, or one that produces no output,
    the handler of a streaming request returns a streaming response,
    not the 500 error: the failure only shows when the body is iterated
    (no data, then the engine's exception), and the silent generation
    is a body that holds the end marker alone. *)
Lemma streaming_failure_is_not_500 :
  (exists body : Generator,
      fst (create_chat_completion example_runtime (globals_with (Some dead_engine))
             (hello_request true) idle_world)
      = Ok (StreamingResponse body "text/plain")
      /\ fst (body (prepared (hello_request true) idle_world))
         = {| yielded := []; raised := Some (RuntimeError "engine dead") |})
  /\ (exists body : Generator,
        fst (create_chat_completion example_runtime (globals_with (Some silent_engine))
               (hello_request true) idle_world)
        = Ok (StreamingResponse body "text/plain")
        /\ fst (body (prepared (hello_request true) idle_world))
           = {| yielded := [sse_data "[DONE]"]; raised := None |}).
Proof.
  split; eexists; (split; [reflexivity|]); reflexivity.
Qed.

Example buffered_failure_is_500 :
  fst (create_chat_completion example_runtime (globals_with (Some dead_engine))
         (hello_request false) idle_world)
  = Raise (HTTPException 500 "engine dead")
  /\ fst (create_chat_completion example_runtime (globals_with (Some silent_engine))
            (hello_request false) idle_world)
     = Raise (HTTPException 500 "500: 推理失败").
Proof. split; reflexivity. Qed.

Lemma engine_failure_outcomes_witness :
  let request := hello_request false in
  let results :=
    generate dead_engine (PyStr (format_messages (messages request)))
      (chat_kwargs request) (random_uuid example_runtime (uuids_drawn idle_world)) in
  llm_engine (globals_with (Some dead_engine)) = Some dead_engine
  /\ SamplingParams_check example_runtime (chat_kwargs request) = None
  /\ last_output results None = Raise (RuntimeError "engine dead")
  /\ (stream request = false ->
        (forall e, last_output results None = Raise e -> is_Exception e = true ->
           fst (create_chat_completion example_runtime (globals_with (Some dead_engine))
                  request idle_world)
           = Raise (HTTPException 500 (str_exn example_runtime e)))
        /\ (last_output results None = Ok None ->
            fst (create_chat_completion example_runtime (globals_with (Some dead_engine))
                   request idle_world)
            = Raise (HTTPException 500
                       (str_exn example_runtime (HTTPException 500 "推理失败"))))
        /\ (forall detail,
              fst (create_chat_completion example_runtime (globals_with (Some dead_engine))
                     request idle_world)
              <> Raise (HTTPException 503 detail))).
Proof.
  intros request results.
  split; [reflexivity|]. split; [reflexivity|]. split; [reflexivity|].
  exact (proj1 (engine_failure_outcomes example_runtime (globals_with (Some dead_engine))
                  dead_engine request idle_world eq_refl eq_refl)).
Defined.

Lemma no_engine_is_unavailable_witness :
  llm_engine (globals_with None) = None
  /\ create_chat_completion example_runtime (globals_with None) (hello_request false) idle_world
     = (Raise (HTTPException 503 "模型尚未加载完成"), idle_world)
  /\ create_completion example_runtime (globals_with None)
       {[ "prompt" := PyStr "Once upon a time" ]} idle_world
     = (Raise (HTTPException 503 "模型尚未加载完成"), idle_world).
Proof.
  split; [reflexivity|].
  pose proof (no_engine_is_unavailable example_runtime (globals_with None) eq_refl)
    as [Hchat Hcompletion].
  split; [apply Hchat | apply Hcompletion].
Defined.

Lemma metrics_middleware_releases_witness :
  let request := {| method := "POST"; url_path := "/v1/chat/completions" |} in
  let call_next := fun _ : HttpRequest =>
    create_chat_completion example_runtime (globals_with (Some dead_engine))
      (hello_request false) in
  fst (metrics_middleware example_runtime request call_next idle_world)
  = Raise (HTTPException 500 "engine dead")
  /\ ACTIVE_REQUESTS (snd (metrics_middleware example_runtime request call_next idle_world))
     = ACTIVE_REQUESTS idle_world.
Proof.
  intros request call_next.
  pose proof (metrics_middleware_releases example_runtime request call_next idle_world
                (keeps_gauge_create_chat_completion _ _ _)) as H.
  cbv zeta in H. destruct H as (_ & Hout & _ & Hgauge).
  split; [rewrite Hout; reflexivity | exact Hgauge].
Defined.

(** ** Validation of the configuration *)

(** Comparisons of floating-point numbers: the order is total on the
    numbers, and [nan] compares with nothing. *)
Lemma SFcompare_antisym (x y : spec_float) (c : comparison) :
  SFcompare x y = Some c -> SFcompare y x = Some (CompOpp c).
Proof.
  destruct x as [sx|sx| |sx mx ex], y as [sy|sy| |sy my ey]; simpl;
    try discriminate; intros [= <-];
    try (destruct sx; reflexivity); try (destruct sy; reflexivity);
    try (destruct sx, sy; reflexivity).
  f_equal.
  destruct sx, sy; simpl; try reflexivity;
    rewrite (Z.compare_antisym ex ey);
    destruct (ex ?= ey); simpl; try reflexivity;
    rewrite (Pos.compare_cont_antisym mx my Eq); reflexivity.
Qed.

Lemma SFcompare_numbers (x y : spec_float) :
  x <> S754_nan -> y <> S754_nan -> exists c, SFcompare x y = Some c.
Proof.
  destruct x, y; simpl; intros Hx Hy; try congruence; eauto.
Qed.

Lemma SFeqb_refl_number (x : spec_float) : SFeqb x x = true -> x <> S754_nan.
Proof. intros H ->. discriminate. Qed.

Lemma SFleb_false_gt (x y : spec_float) :
  x <> S754_nan -> y <> S754_nan -> SFleb x y = false -> SFltb y x = true.
Proof.
  intros Hx Hy. destruct (SFcompare_numbers x y Hx Hy) as [c Hc].
  unfold SFleb, SFltb. rewrite Hc, (SFcompare_antisym _ _ _ Hc).
  destruct c; simpl; congruence.
Qed.

Lemma SFltb_false_le (x y : spec_float) :
  x <> S754_nan -> y <> S754_nan -> SFltb x y = false -> SFleb y x = true.
Proof.
  intros Hx Hy. destruct (SFcompare_numbers x y Hx Hy) as [c Hc].
  unfold SFleb, SFltb. rewrite Hc, (SFcompare_antisym _ _ _ Hc).
  destruct c; simpl; congruence.
Qed.

(** A float that is a number, not [<= 0] and not [> 1], lies in the
    interval from 0 (excluded) to 1 (included). *)
Lemma float_between_0_and_1 (x : float) :
  PrimFloat.eqb x x = true ->
  PrimFloat.leb x 0 = false ->
  PrimFloat.ltb 1 x = false ->
  PrimFloat.ltb 0 x = true /\ PrimFloat.leb x 1 = true.
Proof.
  rewrite FloatAxioms.eqb_spec, !FloatAxioms.leb_spec, !FloatAxioms.ltb_spec.
  intros Hnum%SFeqb_refl_number Hle Hgt.
  split.
  - apply SFleb_false_gt; [assumption| |assumption]. discriminate.
  - apply SFltb_false_le; [|assumption|assumption]. discriminate.
Qed.

Lemma validate_config_defaults (uuid4 hostname : string) (t : float) :
  _validate_config (Settings_defaults uuid4 t hostname)
  = Raise (ValueError "集群模式下工作节点必须指定主节点地址").
Proof. reflexivity. Qed.

Lemma validate_config_ok (self : Settings) :
  _validate_config self = Ok tt ->
  1 <= tensor_parallel_size self
  /\ PrimFloat.leb (gpu_memory_utilization self) 0 = false
  /\ PrimFloat.ltb 1 (gpu_memory_utilization self) = false.
Proof.
  unfold _validate_config.
  destruct (_ && _ && _); [discriminate|].
  destruct (tensor_parallel_size self <? 1) eqn:Htensor; [discriminate|].
  destruct (PrimFloat.leb _ 0) eqn:Hle; [discriminate|].
  destruct (PrimFloat.ltb 1 _) eqn:Hgt; [discriminate|].
  intros _. apply Z.ltb_ge in Htensor. auto.
Qed.

(** C8, as the code has it. By default cluster mode is enabled, the
    node type is worker and no master node is set, and constructing
    [Settings] with all default field values never succeeds: when the
    directories could be set up it raises the [ValueError] about the
    missing master node, and otherwise the error of the directory
    creation. Every instance that constructs
    successfully has a tensor parallel size of at least 1 and a GPU
    memory utilization that is neither [<= 0] nor [> 1]; when that
    utilization is a number it lies above 0 and is at most 1. *)
Theorem settings_construction (os : OS) (fs : FS os) :
  (forall (uuid4 hostname : string) (t : float),
      cluster_enabled (Settings_defaults uuid4 t hostname) = true
      /\ node_type (Settings_defaults uuid4 t hostname) = "worker"
      /\ master_node (Settings_defaults uuid4 t hostname) = None
      /\ match _setup_directories os (Settings_defaults uuid4 t hostname) fs with
      | (Ok _, fs') =>
        Settings_init os (Settings_defaults uuid4 t hostname) fs
        = (Raise (ValueError "集群模式下工作节点必须指定主节点地址"), fs')
      | (Raise e, fs') =>
        Settings_init os (Settings_defaults uuid4 t hostname) fs = (Raise e, fs')
      end)
  /\ (forall self s : Settings,
        fst (Settings_init os self fs) = Ok s ->
        s = self
        /\ 1 <= tensor_parallel_size s
        /\ PrimFloat.leb (gpu_memory_utilization s) 0 = false
        /\ PrimFloat.ltb 1 (gpu_memory_utilization s) = false
        /\ (PrimFloat.eqb (gpu_memory_utilization s) (gpu_memory_utilization s) = true ->
            PrimFloat.ltb 0 (gpu_memory_utilization s) = true
            /\ PrimFloat.leb (gpu_memory_utilization s) 1 = true)).
Proof.
  split.
  - intros uuid4 hostname t. do 3 (split; [reflexivity|]).
    unfold Settings_init.
    destruct (_setup_directories _ _ _) as [[u|e] fs']; [|reflexivity].
    now rewrite validate_config_defaults.
  - intros self s. unfold Settings_init.
    destruct (_setup_directories _ _ _) as [[u|e] fs']; [|discriminate].
    destruct (_validate_config self) as [[]|e] eqn:Hvalid; [|discriminate].
    intros [= <-].
    destruct (validate_config_ok _ Hvalid) as (Htensor & Hle & Hgt).
    split; [reflexivity|]. split; [exact Htensor|].
    split; [exact Hle|]. split; [exact Hgt|].
    intros Hnum. now apply float_between_0_and_1.
Qed.

(** C8 fails as stated in two places. Where no directory can be created,
    constructing the default settings raises the operating system's
    error, not a [ValueError]. And a worker configured with a master node
    and a GPU memory utilization of [nan] constructs successfully,
    although [nan] is not above 0. *)
Lemma settings_counterexample :
  fst (Settings_init readonly_os example_settings tt)
  = Raise (OSError "[Errno 13] Permission denied: '/data/cache'")
  /\ fst (Settings_init permissive_os (worker_settings nan) ∅) = Ok (worker_settings nan)
  /\ PrimFloat.ltb 0 (gpu_memory_utilization (worker_settings nan)) = false.
Proof. repeat split. Qed.

Lemma settings_construction_witness :
  Settings_init permissive_os example_settings ∅
  = (Raise (ValueError "集群模式下工作节点必须指定主节点地址"),
     {[ "/data/models" ]} ∪ ({[ "/data/logs" ]} ∪ ({[ "/data/cache" ]} ∪ ∅)))
  /\ fst (Settings_init permissive_os (worker_settings 0.85) ∅) = Ok (worker_settings 0.85)
  /\ 1 <= tensor_parallel_size (worker_settings 0.85)
  /\ PrimFloat.ltb 0 (gpu_memory_utilization (worker_settings 0.85)) = true
  /\ PrimFloat.leb (gpu_memory_utilization (worker_settings 0.85)) 1 = true.
Proof.
  pose proof (settings_construction permissive_os ∅) as [Hdefault Hok].
  split; [exact (proj2 (proj2 (proj2 (Hdefault "node-1" "pod-1" 1699999000%float))))|].
  split; [reflexivity|].
  destruct (Hok (worker_settings 0.85) (worker_settings 0.85) eq_refl)
    as (_ & Htensor & _ & _ & Hnum).
  split; [exact Htensor|]. exact (Hnum eq_refl).
Defined.

(** ** Admission control *)

Section AdmissionControl.

Import Admission.

Lemma in_flight_fresh (ceiling limit : nat) (window : Z) :
  in_flight (fresh ceiling limit window) = 0%nat.
Proof. unfold in_flight, fresh. cbn [outstanding]. apply size_empty. Qed.

Lemma TryAcquire_ceiling (now : Z) (c : Controller) :
  concurrency_ceiling (snd (TryAcquire now c)) = concurrency_ceiling c.
Proof.
  unfold TryAcquire. repeat case_bool_decide; reflexivity.
Qed.

(** One more ticket is issued only below the ceiling. *)
Lemma TryAcquire_bounded (now : Z) (c : Controller) :
  (in_flight c ≤ concurrency_ceiling c)%nat ->
  (in_flight (snd (TryAcquire now c)) ≤ concurrency_ceiling c)%nat.
Proof.
  intros Hbound. unfold TryAcquire.
  case_bool_decide; [exact Hbound|].
  case_bool_decide; [exact Hbound|].
  unfold in_flight in *. simpl.
  rewrite size_union_alt, size_singleton.
  assert (size (outstanding c ∖ {[next_ticket c]}) ≤ size (outstanding c))%nat
    by (apply subseteq_size; set_solver).
  lia.
Qed.

Lemma Release_bounded (ticket : nat) (c : Controller) :
  (in_flight (Release ticket c) ≤ in_flight c)%nat.
Proof.
  unfold in_flight, Release. simpl. apply subseteq_size. set_solver.
Qed.

Lemma run_bounded (ops : list Op) (c : Controller) :
  (in_flight c ≤ concurrency_ceiling c)%nat ->
  (in_flight (run ops c) ≤ concurrency_ceiling c)%nat
  /\ concurrency_ceiling (run ops c) = concurrency_ceiling c.
Proof.
  revert c. unfold run.
  induction ops as [|op ops IH]; intros c Hbound; simpl; [auto|].
  destruct op as [now|ticket]; simpl.
  - destruct (IH (snd (TryAcquire now c))) as [Hin Hceil].
    + rewrite TryAcquire_ceiling. now apply TryAcquire_bounded.
    + rewrite TryAcquire_ceiling in Hin, Hceil. auto.
  - destruct (IH (Release ticket c)) as [Hin Hceil].
    + pose proof (Release_bounded ticket c). simpl. lia.
    + auto.
Qed.

Lemma TryAcquire_ticket (now : Z) (c : Controller) :
  (in_flight c < concurrency_ceiling c)%nat ->
  (length (admissions c) < rate_limit c)%nat ->
  exists c',
    TryAcquire now c = (Ticket (next_ticket c), c')
    /\ outstanding c' = {[next_ticket c]} ∪ outstanding c
    /\ next_ticket c' = S (next_ticket c)
    /\ concurrency_ceiling c' = concurrency_ceiling c
    /\ rate_limit c' = rate_limit c
    /\ (length (admissions c') ≤ S (length (admissions c)))%nat.
Proof.
  intros Hroom Hrate. unfold TryAcquire.
  case_bool_decide; [lia|].
  pose proof (length_filter (fun t => bool_decide (now - t < rate_window c))
                (admissions c)) as Hfilter.
  case_bool_decide; [lia|].
  eexists. split; [reflexivity|]. simpl. repeat split. lia.
Qed.

Lemma TryAcquire_full (now : Z) (c : Controller) :
  (concurrency_ceiling c ≤ in_flight c)%nat ->
  TryAcquire now c = (Rejected ConcurrencyLimit, c).
Proof.
  intros Hfull. unfold TryAcquire. now rewrite bool_decide_eq_true_2.
Qed.

(** C4. Whatever calls of TryAcquire and Release reach a controller, in
    whatever order, the tickets outstanding never exceed its concurrency
    ceiling. With a ceiling of 2 (and a rate limit that allows three
    admissions), three calls of TryAcquire issued at any times yield two
    tickets and then the rejection ConcurrencyLimit, and once either
    ticket is released the next TryAcquire succeeds. *)
Theorem admission_within_ceiling (limit : nat) (window : Z)
  (Hlimit : (3 ≤ limit)%nat) :
  (forall (ceiling : nat) (ops : list Op),
      (in_flight (run ops (fresh ceiling limit window)) ≤ ceiling)%nat)
  /\ (forall t1 t2 t3 t4 : Z,
        exists c1 c2 : Controller,
          TryAcquire t1 (fresh 2 limit window) = (Ticket 0, c1)
          /\ TryAcquire t2 c1 = (Ticket 1, c2)
          /\ TryAcquire t3 c2 = (Rejected ConcurrencyLimit, c2)
          /\ in_flight c2 = 2%nat
          /\ forall released : nat, released = 0%nat \/ released = 1%nat ->
               exists c4, TryAcquire t4 (Release released c2) = (Ticket 2, c4)
                          /\ in_flight c4 = 2%nat).
Proof.
  split.
  - intros ceiling ops.
    apply (run_bounded ops (fresh ceiling limit window)).
    rewrite in_flight_fresh. cbn [fresh concurrency_ceiling]. lia.
  - intros t1 t2 t3 t4.
    destruct (TryAcquire_ticket t1 (fresh 2 limit window))
      as (c1 & H1 & Hout1 & Hnext1 & Hceil1 & Hrate1 & Hadm1).
    { rewrite in_flight_fresh. cbn [fresh concurrency_ceiling]. lia. }
    { cbn [fresh admissions rate_limit length]. lia. }
    simpl in Hout1, Hnext1, Hceil1, Hrate1, Hadm1.
    assert (Hsize1 : in_flight c1 = 1%nat).
    { unfold in_flight. rewrite Hout1, union_empty_r_L. apply size_singleton. }
    destruct (TryAcquire_ticket t2 c1)
      as (c2 & H2 & Hout2 & Hnext2 & Hceil2 & Hrate2 & Hadm2); [lia..|].
    rewrite Hnext1 in H2, Hout2, Hnext2. rewrite Hout1, union_empty_r_L in Hout2.
    assert (Hsize2 : in_flight c2 = 2%nat).
    { unfold in_flight. rewrite Hout2, size_union by set_solver.
      now rewrite !size_singleton. }
    exists c1, c2. split; [exact H1|]. split; [exact H2|].
    split; [apply TryAcquire_full; lia|]. split; [exact Hsize2|].
    intros released Hreleased.
    assert (Hsize3 : in_flight (Release released c2) = 1%nat).
    { unfold in_flight, Release. simpl. rewrite Hout2.
      destruct Hreleased as [-> | ->].
      - replace (({[1%nat]} ∪ {[0%nat]}) ∖ {[0%nat]}) with ({[1%nat]} : gset nat)
          by set_solver.
        apply size_singleton.
      - replace (({[1%nat]} ∪ {[0%nat]}) ∖ {[1%nat]}) with ({[0%nat]} : gset nat)
          by set_solver.
        apply size_singleton. }
    destruct (TryAcquire_ticket t4 (Release released c2))
      as (c4 & H4 & Hout4 & Hnext4 & _); [simpl; lia..|].
    simpl in H4, Hout4. rewrite Hnext2 in H4, Hout4.
    exists c4. split; [exact H4|].
    unfold in_flight. rewrite Hout4, Hout2, size_union.
    + rewrite size_singleton. unfold in_flight, Release in Hsize3.
      simpl in Hsize3. rewrite Hout2 in Hsize3. lia.
    + set_solver.
Qed.

End AdmissionControl.

Lemma admission_within_ceiling_witness :
  (3 ≤ 100)%nat
  /\ (forall (ceiling : nat) (ops : list Admission.Op),
        (Admission.in_flight (Admission.run ops (Admission.fresh ceiling 100 60)) ≤ ceiling)%nat)
  /\ (forall t1 t2 t3 t4 : Z,
        exists c1 c2 : Admission.Controller,
          Admission.TryAcquire t1 (Admission.fresh 2 100 60) = (Admission.Ticket 0, c1)
          /\ Admission.TryAcquire t2 c1 = (Admission.Ticket 1, c2)
          /\ Admission.TryAcquire t3 c2
             = (Admission.Rejected Admission.ConcurrencyLimit, c2)
          /\ Admission.in_flight c2 = 2%nat
          /\ forall released : nat, released = 0%nat \/ released = 1%nat ->
               exists c4,
                 Admission.TryAcquire t4 (Admission.Release released c2)
                 = (Admission.Ticket 2, c4)
                 /\ Admission.in_flight c4 = 2%nat).
Proof.
  split; [lia|].
  exact (admission_within_ceiling 100 60 ltac:(lia)).
Defined.

Example admission_scenario :
  let c0 := Admission.of_settings
              (Settings_override None "master" 1 0.85 example_settings) in
  Admission.concurrency_ceiling c0 = 100%nat
  /\ fst (Admission.TryAcquire 0 (Admission.fresh 2 100 60)) = Admission.Ticket 0
  /\ fst (Admission.TryAcquire 0
            (Admission.run [Admission.OpTryAcquire 0; Admission.OpTryAcquire 0]
               (Admission.fresh 2 100 60)))
     = Admission.Rejected Admission.ConcurrencyLimit
  /\ fst (Admission.TryAcquire 0
            (Admission.run
               [Admission.OpTryAcquire 0; Admission.OpTryAcquire 0; Admission.OpRelease 1]
               (Admission.fresh 2 100 60)))
     = Admission.Ticket 2.
Proof. vm_compute. repeat split. Qed.

(** ** Routing and the circuit breaker *)

Section Routing.

Import Coordinator.

Variable cfg : Config.

Lemma routable_closed_healthy (c : Cluster) (id : string) :
  routable c id = true ->
  state (breaker_of c id) = Closed
  /\ exists n, registry c !! id = Some n /\ health n = Healthy.
Proof.
  unfold routable.
  destruct (registry c !! id) as [n|]; [|discriminate].
  intros [Hhealth Hclosed]%andb_prop.
  apply bool_decide_eq_true in Hhealth, Hclosed. eauto.
Qed.

(** The rotation holds exactly the routable nodes. *)
Lemma elem_of_rotation (c : Cluster) (id : string) :
  id ∈ rotation c <-> routable c id = true.
Proof.
  unfold rotation. rewrite merge_sort_Permutation, list_elem_of_filter.
  split; [tauto|]. intros Hroutable. split; [exact Hroutable|].
  apply elem_of_elements, elem_of_dom.
  unfold routable in Hroutable.
  destruct (registry c !! id); [eauto | discriminate].
Qed.

Lemma round_robin_selected (c c' : Cluster) (id : string) :
  round_robin c = (Selected id, c') ->
  routable c id = true /\ registry c' = registry c /\ breakers c' = breakers c.
Proof.
  unfold round_robin.
  destruct (rotation c !! _) as [id'|] eqn:Hlookup; [|discriminate].
  intros [= <- <-]. split; [|split; reflexivity].
  apply elem_of_rotation. eapply list_elem_of_lookup_2. exact Hlookup.
Qed.

Lemma round_robin_none (c c' : Cluster) :
  round_robin c = (NoEligibleNode, c') ->
  c' = c /\ forall id, routable c id = false.
Proof.
  unfold round_robin.
  destruct (rotation c !! _) as [id'|] eqn:Hlookup; [discriminate|].
  intros [= <-]. split; [reflexivity|]. intros id.
  destruct (routable c id) eqn:Hroutable; [|reflexivity].
  apply elem_of_rotation in Hroutable.
  apply lookup_ge_None in Hlookup.
  destruct (rotation c) as [|x l]; [inversion Hroutable|].
  pose proof (Nat.mod_upper_bound (cursor c) (length (x :: l))) as Hlt.
  simpl in *. lia.
Qed.

(** What SelectNode returns was routable when it was called, and the
    call changes neither the registry nor the breakers. *)
Lemma SelectNode_sound (ctx : RequestContext) (c : Cluster) :
  registry (snd (SelectNode cfg ctx c)) = registry c
  /\ breakers (snd (SelectNode cfg ctx c)) = breakers c
  /\ match fst (SelectNode cfg ctx c) with
     | Selected id => routable c id = true
     | NoEligibleNode => forall id, routable c id = false
     end.
Proof.
  assert (Hrr :
    forall key : option string,
      let r := match round_robin c with
               | (Selected id', c') =>
                 (Selected id', match key with Some k => remember k id' c' | None => c' end)
               | (NoEligibleNode, c') => (NoEligibleNode, c')
               end in
      registry (snd r) = registry c
      /\ breakers (snd r) = breakers c
      /\ match fst r with
         | Selected id => routable c id = true
         | NoEligibleNode => forall id, routable c id = false
         end).
  { intros key.
    destruct (round_robin c) as [[id'|] c'] eqn:Hround.
    - destruct (round_robin_selected _ _ _ Hround) as (Hroutable & Hreg & Hbr).
      destruct key; simpl; auto.
    - destruct (round_robin_none _ _ Hround) as [-> Hnone]. simpl. auto. }
  unfold SelectNode.
  destruct (if sticky_sessions cfg then session_key ctx else None) as [key|].
  - destruct (sessions c !! key) as [id|].
    + destruct (routable c id) eqn:Hroutable; [simpl; auto|].
      exact (Hrr (Some key)).
    + exact (Hrr (Some key)).
  - specialize (Hrr None). simpl in Hrr.
    destruct (round_robin c) as [[id'|] c']; exact Hrr.
Qed.

(** C3. After any sequence of events (registrations, heartbeats and
    missed heartbeats, evictions, recorded outcomes, eligibility checks,
    earlier selections), the node that SelectNode returns is Healthy and
    its breaker is Closed, before and after the call; SelectNode fails
    with NoEligibleNode only when no node is Healthy and Closed; and a
    node whose breaker is Open is never the one returned. *)
Theorem select_node_never_open (events : list Event) (ctx : RequestContext) :
  let c := run cfg events empty_cluster in
  let r := SelectNode cfg ctx c in
  match fst r with
  | Selected id =>
    state (breaker_of c id) = Closed
    /\ (exists n, registry c !! id = Some n /\ health n = Healthy)
    /\ state (breaker_of (snd r) id) = Closed
  | NoEligibleNode => forall id, routable c id = false
  end
  /\ forall id, state (breaker_of c id) = Open -> fst r <> Selected id.
Proof.
  intros c r.
  destruct (SelectNode_sound ctx c) as (Hreg & Hbr & Hsel).
  fold r in Hreg, Hbr, Hsel.
  split.
  - destruct (fst r) as [id|]; [|exact Hsel].
    destruct (routable_closed_healthy _ _ Hsel) as [Hclosed Hhealthy].
    split; [exact Hclosed|]. split; [exact Hhealthy|].
    unfold breaker_of in *. now rewrite Hbr.
  - intros id Hopen Hfst. rewrite Hfst in Hsel.
    destruct (routable_closed_healthy _ _ Hsel) as [Hclosed _].
    congruence.
Qed.

End Routing.

Example open_node_is_skipped :
  let c := Coordinator.run example_config example_events Coordinator.empty_cluster in
  Coordinator.state (Coordinator.breaker_of c "A") = Coordinator.Open
  /\ Coordinator.rotation c = ["B"; "C"]
  /\ fst (Coordinator.SelectNode example_config example_context c)
     = Coordinator.Selected "B".
Proof. vm_compute. repeat split. Qed.

(** * Further properties of the code *)

(** ** JSON strings *)

Lemma no_control_app (s t : string) :
  no_control (s +:+ t) = no_control s && no_control t.
Proof.
  induction s as [|c s IH]; [reflexivity|].
  rewrite string_app_cons. simpl. rewrite IH. now rewrite andb_assoc.
Qed.

Lemma no_control_escape_char (c : ascii) : no_control (json_escape_char c) = true.
Proof. destruct c as [[] [] [] [] [] [] [] []]; reflexivity. Qed.

Lemma no_control_escape (s : string) : no_control (json_escape s) = true.
Proof.
  induction s as [|c s IH]; [reflexivity|].
  simpl. now rewrite no_control_app, no_control_escape_char, IH.
Qed.

Lemma json_read_escape_char (c : ascii) (t : string) :
  json_read (json_escape_char c +:+ t) = read_more c (json_read t).
Proof. destruct c as [[] [] [] [] [] [] [] []]; reflexivity. Qed.

(** Reading an escaped text up to its closing quote gives the text back,
    and leaves what followed the quote. *)
Lemma json_read_escape (s rest : string) :
  json_read (json_escape s +:+ dquote +:+ rest) = Some (s, rest).
Proof.
  induction s as [|c s IH]; [reflexivity|].
  simpl json_escape. rewrite string_app_assoc, json_read_escape_char, IH.
  reflexivity.
Qed.

Lemma no_control_pretty_N_char (x : N) (s : string) :
  no_control (String (pretty_N_char x) s) = no_control s.
Proof.
  unfold pretty_N_char. repeat case_match; reflexivity.
Qed.

Lemma no_control_pretty_N_go (x : N) (s : string) :
  no_control s = true -> no_control (pretty_N_go x s) = true.
Proof.
  revert s. induction (N.lt_wf_0 x) as [x _ IH]; intros s Hs.
  destruct (decide (x = 0%N)) as [->|Hpos]; [exact Hs|].
  rewrite pretty_N_go_step by lia.
  apply IH; [apply N.div_lt; lia|].
  now rewrite no_control_pretty_N_char.
Qed.

Lemma no_control_pretty_Z (z : Z) : no_control (pretty z) = true.
Proof.
  assert (Hpos : forall p : positive, no_control (pretty p) = true).
  { intros p. unfold pretty, pretty_positive, pretty, pretty_N.
    case_decide; [reflexivity|]. now apply no_control_pretty_N_go. }
  destruct z as [|p|p]; [reflexivity|apply Hpos|].
  change (pretty (Z.neg p)) with ("-" +:+ pretty p).
  now rewrite no_control_app, Hpos.
Qed.

Lemma no_control_json_str (s : string) : no_control (json_str s) = true.
Proof.
  unfold json_str. now rewrite !no_control_app, no_control_escape.
Qed.

Lemma no_control_json_opt_str (o : option string) :
  no_control (json_opt_str o) = true.
Proof. destruct o; [apply no_control_json_str | reflexivity]. Qed.

Lemma no_control_json_dumps_list (items : list string) :
  Forall (fun x => no_control x = true) items ->
  no_control (json_dumps_list items) = true.
Proof.
  induction 1 as [|x items Hx Hitems IH]; [reflexivity|].
  destruct items as [|y items]; [exact Hx|].
  change (json_dumps_list (x :: y :: items))
    with (x +:+ ", " +:+ json_dumps_list (y :: items)).
  now rewrite !no_control_app, Hx, IH.
Qed.

Lemma no_control_json_dumps_chunk (c : Chunk) :
  no_control (json_dumps_chunk c) = true.
Proof.
  unfold json_dumps_chunk.
  rewrite !no_control_app, !no_control_json_str, no_control_pretty_Z.
  rewrite no_control_json_dumps_list; [reflexivity|].
  apply Forall_map, Forall_forall. intros choice _.
  unfold json_dumps_chunk_choice.
  now rewrite !no_control_app, !no_control_json_str, no_control_pretty_Z,
    no_control_json_opt_str.
Qed.

(** X1. Whatever the engine does, every string the streaming generator
    yields is one server-sent event: the prefix [data: ], a payload
    without any control character (no line feed, no carriage return),
    and two line feeds. Texts with line breaks are escaped, so an event
    never ends early and never spans two events. *)
Theorem stream_events_are_framed (request_id model : string) (start_time : float)
  (results : EngineStream) :
  Forall (fun event => exists payload,
            event = "data: " +:+ payload +:+ nl +:+ nl
            /\ no_control payload = true)
    (yielded (stream_loop request_id start_time model results)).
Proof.
  induction results as [|request_output rest IH|e]; simpl.
  - constructor; [|constructor]. exists "[DONE]". split; reflexivity.
  - destruct (list_index0 (outputs request_output)) as [output|e]; [|constructor].
    destruct (int_of_float start_time) as [created|e]; [|constructor].
    simpl. constructor; [|exact IH].
    eexists. split; [reflexivity|]. apply no_control_json_dumps_chunk.
  - constructor.
Qed.

Lemma json_str_app (s rest : string) :
  json_str s +:+ rest = String "034" (json_escape s +:+ dquote +:+ rest).
Proof. unfold json_str. now rewrite !string_app_assoc. Qed.

(** A string literal followed by anything determines its text and what
    follows. *)
Lemma json_str_inj (s1 s2 rest1 rest2 : string) :
  json_str s1 +:+ rest1 = json_str s2 +:+ rest2 -> s1 = s2 /\ rest1 = rest2.
Proof.
  rewrite !json_str_app. intros [= Heq].
  apply (f_equal json_read) in Heq. rewrite !json_read_escape in Heq.
  now injection Heq.
Qed.

Lemma json_opt_str_inj (o1 o2 : option string) (rest1 rest2 : string) :
  json_opt_str o1 +:+ rest1 = json_opt_str o2 +:+ rest2 -> o1 = o2.
Proof.
  destruct o1 as [s1|], o2 as [s2|]; unfold json_opt_str;
    rewrite ?json_str_app, ?string_app_cons; intros Heq.
  - rewrite <- !json_str_app in Heq. apply json_str_inj in Heq as [-> _].
    reflexivity.
  - discriminate.
  - discriminate.
  - reflexivity.
Qed.

(** X2. Within one stream (one request id, creation time and model) the
    event of a chunk determines the output it was built from: two
    outputs that differ in their text or in their finish reason are sent
    as different events, because reading the escaped delta gives the
    text back. *)
Theorem chunk_event_inj (request_id model : string) (created : Z)
  (output1 output2 : CompletionOutput) :
  chunk_event request_id created model output1
  = chunk_event request_id created model output2 ->
  output1 = output2.
Proof.
  unfold chunk_event, sse_data, json_dumps_chunk, chunk_of.
  cbn [chunk_id chunk_object chunk_created chunk_model chunk_choices map
       json_dumps_list].
  unfold json_dumps_chunk_choice.
  cbn [chunk_choice_index delta_content chunk_finish_reason].
  rewrite !string_app_assoc.
  intros Heq.
  repeat (apply (inj (String.append _)) in Heq).
  apply json_str_inj in Heq as [Htext Hrest].
  repeat (apply (inj (String.append _)) in Hrest).
  apply json_opt_str_inj in Hrest.
  destruct output1, output2; simpl in *; congruence.
Qed.

(** ** Streams that fail on the way *)

Lemma stream_loop_stream_then (request_id model : string) (start_time : float)
  (created : Z) (outs : list CompletionOutput) (tail : EngineStream) :
  int_of_float start_time = Ok created ->
  stream_loop request_id start_time model (stream_then (map single outs) tail)
  = {| yielded := map (chunk_event request_id created model) outs
                  ++ yielded (stream_loop request_id start_time model tail);
       raised := raised (stream_loop request_id start_time model tail) |}.
Proof.
  intros Hcreated.
  induction outs as [|o outs IH].
  - simpl. now destruct (stream_loop request_id start_time model tail).
  - change (stream_then (map single (o :: outs)) tail)
      with (StreamYield (single o) (stream_then (map single outs) tail)).
    cbn [stream_loop single outputs list_index0].
    rewrite Hcreated, IH. reflexivity.
Qed.

(** X3. When the engine fails after some outputs, the body of the
    streaming response delivers the chunks of those outputs, in order,
    and then ends with the engine's exception: nothing that was
    generated is lost, and the end marker is not sent. *)
Theorem stream_delivers_until_failure (rt : Runtime) (g : Globals)
  (engine : AsyncLLMEngine) (prompt : string) (sp : SamplingParams)
  (request_id model : string) (w : World)
  (outs : list CompletionOutput) (e : exn) (created : Z)
  (Hengine : llm_engine g = Some engine)
  (Hstream : generate engine (PyStr prompt) sp request_id
             = stream_then (map single outs) (StreamRaise e))
  (Hclock : int_of_float (time_time rt (clock_reads w)) = Ok created) :
  fst (stream_chat_completion rt g prompt sp request_id model w)
  = {| yielded := map (chunk_event request_id created model) outs;
       raised := Some e |}.
Proof.
  rewrite (stream_chat_completion_run rt g engine) by assumption.
  rewrite Hstream, (stream_loop_stream_then _ _ _ created) by assumption.
  simpl. now rewrite app_nil_r.
Qed.

(** ** What the handlers leave alone *)

Lemma preserves_bind {X A B : Type} (f : World -> X) (m : M A) (k : A -> M B) :
  preserves f m -> (forall a, preserves f (k a)) -> preserves f (bind m k).
Proof.
  intros Hm Hk w. unfold bind.
  specialize (Hm w). destruct (m w) as [[a|e] w']; simpl in *.
  - now rewrite Hk.
  - exact Hm.
Qed.

Lemma preserves_try_except {X A : Type} (f : World -> X)
  (body : M A) (handler : exn -> M A) :
  preserves f body -> (forall e, preserves f (handler e)) ->
  preserves f (try_except body handler).
Proof.
  intros Hb Hh w. unfold try_except.
  specialize (Hb w). destruct (body w) as [[a|e] w']; simpl in *; [exact Hb|].
  destruct (is_Exception e); simpl; [now rewrite Hh | exact Hb].
Qed.

(** Steps through a computation built from [bind], [try_except] and
    case distinctions, and closes the primitive steps by computation. *)
Ltac preserve :=
  repeat first
    [ apply preserves_bind; [|intros ?]
    | apply preserves_try_except; [|intros ?]
    | assumption
    | match goal with
      | |- preserves _ (match ?x with _ => _ end) => destruct x
      | |- preserves _ (if ?b then _ else _) => destruct b
      end
    | solve [intros ?; reflexivity] ].

Lemma new_SamplingParams_log (rt : Runtime) (kwargs : SamplingParams) :
  preserves error_log (new_SamplingParams rt kwargs).
Proof. unfold new_SamplingParams. preserve. Qed.

Lemma generate_chat_completion_log (rt : Runtime) (g : Globals)
  (prompt : string) (sp : SamplingParams) (request_id model : string) :
  preserves error_log (generate_chat_completion rt g prompt sp request_id model).
Proof. unfold generate_chat_completion. preserve. Qed.

Lemma not_Exception_is_cancelled (e : exn) :
  is_Exception e = false -> e = CancelledError.
Proof. destruct e; simpl; congruence. Qed.

(** X4. With an engine loaded, a chat-completion request ends in one of
    three ways: with a response, and nothing is written to the error
    log; with the cancellation of the request, passed on as it is and
    not logged; or with the 500 error, and then exactly one line is
    added to the error log, which carries the same detail as the
    error. *)
Theorem chat_completion_outcomes (rt : Runtime) (g : Globals)
  (engine : AsyncLLMEngine) (request : ChatCompletionRequest) (w : World)
  (Hengine : llm_engine g = Some engine) :
  let outcome := fst (create_chat_completion rt g request w) in
  let w' := snd (create_chat_completion rt g request w) in
  (exists response, outcome = Ok response /\ error_log w' = error_log w)
  \/ (outcome = Raise CancelledError /\ error_log w' = error_log w)
  \/ (exists detail,
        outcome = Raise (HTTPException 500 detail)
        /\ error_log w' = error_log w ++ ["聊天完成请求失败: " +:+ detail]).
Proof.
  unfold create_chat_completion. rewrite Hengine. unfold try_except.
  match goal with
  | |- context [match ?b w with _ => _ end] =>
    assert (Hbody : preserves error_log b);
      [|specialize (Hbody w); destruct (b w) as [[response|e] w1]]
  end.
  - pose proof new_SamplingParams_log. pose proof generate_chat_completion_log.
    preserve.
  - left. simpl in *. eauto.
  - right. simpl in Hbody. destruct (is_Exception e) eqn:Hexc.
    + right. exists (str_exn rt e). simpl. now rewrite Hbody.
    + left. apply not_Exception_is_cancelled in Hexc as ->. simpl. auto.
Qed.

Lemma chat_completion_outcomes_witness :
  llm_engine (globals_with (Some dead_engine)) = Some dead_engine
  /\ fst (create_chat_completion example_runtime (globals_with (Some dead_engine))
            (hello_request false) idle_world)
     = Raise (HTTPException 500 "engine dead")
  /\ error_log (snd (create_chat_completion example_runtime
                       (globals_with (Some dead_engine)) (hello_request false) idle_world))
     = ["聊天完成请求失败: engine dead"].
Proof.
  split; [reflexivity|].
  destruct (chat_completion_outcomes example_runtime (globals_with (Some dead_engine))
              dead_engine (hello_request false) idle_world eq_refl)
    as [(response & Hout & _) | [[Hout _] | (detail & Hout & Hlog)]].
  - vm_compute in Hout. discriminate.
  - vm_compute in Hout. discriminate.
  - split; [reflexivity|]. rewrite Hlog.
    assert (detail = "engine dead") as -> by (vm_compute in Hout; congruence).
    reflexivity.
Defined.

(** X5. When the constructor of [SamplingParams] rejects the arguments
    of a chat-completion request, streaming or not, the request ends with
    the 500 error carrying the constructor's message and one line in the
    error log; no request id has been drawn and the engine has not been
    asked to generate anything. *)
Theorem rejected_sampling_params (rt : Runtime) (g : Globals)
  (engine : AsyncLLMEngine) (request : ChatCompletionRequest) (w : World) (e : exn)
  (Hengine : llm_engine g = Some engine)
  (Hcheck : SamplingParams_check rt (chat_kwargs request) = Some e)
  (Hexc : is_Exception e = true) :
  create_chat_completion rt g request w
  = (Raise (HTTPException 500 (str_exn rt e)),
     add_error_log ("聊天完成请求失败: " +:+ str_exn rt e)
       (add_call (CallSamplingParams (chat_kwargs request)) w))
  /\ calls (snd (create_chat_completion rt g request w))
     = calls w ++ [CallSamplingParams (chat_kwargs request)]
  /\ uuids_drawn (snd (create_chat_completion rt g request w)) = uuids_drawn w.
Proof.
  assert (Heq :
    create_chat_completion rt g request w
    = (Raise (HTTPException 500 (str_exn rt e)),
       add_error_log ("聊天完成请求失败: " +:+ str_exn rt e)
         (add_call (CallSamplingParams (chat_kwargs request)) w))).
  { unfold create_chat_completion. rewrite Hengine.
    unfold try_except, new_SamplingParams.
    fold (chat_kwargs request).
    unfold bind at 1 2 3. unfold call at 1.
    rewrite Hcheck. unfold raise at 1. rewrite Hexc. reflexivity. }
  rewrite Heq. repeat split.
Qed.

Lemma rejected_sampling_params_witness :
  create_chat_completion strict_runtime hello_globals (zero_top_p_request true) idle_world
  = (Raise (HTTPException 500 "top_p must be in (0, 1], got 0.0."),
     add_error_log "聊天完成请求失败: top_p must be in (0, 1], got 0.0."
       (add_call (CallSamplingParams (chat_kwargs (zero_top_p_request true))) idle_world))
  /\ calls (snd (create_chat_completion strict_runtime hello_globals
                   (zero_top_p_request true) idle_world))
     = calls idle_world ++ [CallSamplingParams (chat_kwargs (zero_top_p_request true))]
  /\ uuids_drawn (snd (create_chat_completion strict_runtime hello_globals
                         (zero_top_p_request true) idle_world))
     = uuids_drawn idle_world.
Proof.
  exact (rejected_sampling_params strict_runtime hello_globals hello_engine
           (zero_top_p_request true) idle_world
           (ValueError "top_p must be in (0, 1], got 0.0.")
           eq_refl eq_refl eq_refl).
Defined.

(** X6. A non-streaming request can still fail after the generation has
    run to its end: when the last request output holds no completion,
    the request ends with the 500 error [list index out of range], and
    when no tokenizer is loaded it ends with the 500 error about the
    missing attribute [encode]; in both cases the engine had been asked
    to generate. *)
Theorem failures_after_generation (rt : Runtime) (g : Globals)
  (engine : AsyncLLMEngine) (request : ChatCompletionRequest) (w : World)
  (final_output : RequestOutput)
  (Hengine : llm_engine g = Some engine)
  (Hstream : stream request = false)
  (Hcheck : SamplingParams_check rt (chat_kwargs request) = None)
  (Hlast : last_output
             (generate engine (PyStr (format_messages (messages request)))
                (chat_kwargs request) (random_uuid rt (uuids_drawn w))) None
           = Ok (Some final_output)) :
  let generation :=
    CallGenerate (PyStr (format_messages (messages request))) (chat_kwargs request)
      (random_uuid rt (uuids_drawn w)) in
  (outputs final_output = [] ->
   fst (create_chat_completion rt g request w)
   = Raise (HTTPException 500 "list index out of range")
   /\ In generation (calls (snd (create_chat_completion rt g request w))))
  /\ (outputs final_output <> [] -> tokenizer g = None ->
      fst (create_chat_completion rt g request w)
      = Raise (HTTPException 500 "'NoneType' object has no attribute 'encode'")
      /\ In generation (calls (snd (create_chat_completion rt g request w)))).
Proof.
  intros generation.
  pose proof (create_chat_completion_buffered rt g engine request w
                Hengine Hstream Hcheck) as Heq.
  rewrite (generate_chat_completion_paths rt g engine) in Heq by assumption.
  cbv zeta in Heq. rewrite Hlast in Heq.
  split.
  - intros Hempty. rewrite Hempty in Heq. rewrite Heq. simpl.
    split; [reflexivity|]. apply in_or_app. right. simpl. auto.
  - intros Hsome Htok.
    destruct (outputs final_output) as [|output rest]; [congruence|].
    rewrite Htok in Heq. rewrite Heq. simpl.
    split; [reflexivity|]. apply in_or_app. right. simpl. auto.
Qed.

Lemma failures_after_generation_witness :
  fst (create_chat_completion example_runtime (globals_with (Some hollow_engine))
         (hello_request false) idle_world)
  = Raise (HTTPException 500 "list index out of range")
  /\ fst (create_chat_completion example_runtime globals_without_tokenizer
            (hello_request false) idle_world)
     = Raise (HTTPException 500 "'NoneType' object has no attribute 'encode'").
Proof.
  split.
  - exact (proj1 (proj1 (failures_after_generation example_runtime
                           (globals_with (Some hollow_engine)) hollow_engine
                           (hello_request false) idle_world {| outputs := [] |}
                           eq_refl eq_refl eq_refl eq_refl) eq_refl)).
  - refine (proj1 (proj2 (failures_after_generation example_runtime
                            globals_without_tokenizer hello_engine
                            (hello_request false) idle_world
                            (single {| text := "!"; finish_reason := Some "stop" |})
                            eq_refl eq_refl eq_refl eq_refl) _ eq_refl)).
    discriminate.
Defined.

(** ** Text completions *)

(** [create_completion], path by path. *)
Lemma create_completion_paths (rt : Runtime) (g : Globals) (engine : AsyncLLMEngine)
  (request : gmap string PyVal) (w : World) :
  llm_engine g = Some engine ->
  create_completion rt g request w
  = let kwargs := completion_kwargs request in
    let w1 := add_call (CallSamplingParams kwargs) w in
    match SamplingParams_check rt kwargs with
    | Some e => completion_failure rt e w1
    | None =>
      let request_id := random_uuid rt (uuids_drawn w) in
      let w3 := add_call (CallGenerate (completion_prompt request) kwargs request_id)
                  (add_call CallRandomUuid w1) in
      match last_output (generate engine (completion_prompt request) kwargs request_id)
              None with
      | Raise e => completion_failure rt e w3
      | Ok None => completion_failure rt (HTTPException 500 "推理失败") w3
      | Ok (Some final_output) =>
        match outputs final_output with
        | [] => completion_failure rt (IndexError "list index out of range") w3
        | output :: _ =>
          match int_of_float (time_time rt (clock_reads w)) with
          | Raise e => completion_failure rt e (tick_clock w3)
          | Ok created =>
            (Ok (text_completion request request_id created output), tick_clock w3)
          end
        end
      end
    end.
Proof.
  intros Hengine. unfold create_completion. rewrite Hengine.
  unfold try_except, new_SamplingParams, draw_uuid, completion_failure.
  fold (completion_kwargs request). fold (completion_prompt request).
  unfold bind at 1 2 3. unfold call at 1. cbv zeta.
  destruct (SamplingParams_check rt (completion_kwargs request)) as [e|];
    [reflexivity|].
  unfold ret at 1. unfold bind at 1 2. unfold call at 1, lift at 1.
  simpl uuids_drawn.
  destruct (last_output _ None) as [[final_output|]|e]; try reflexivity.
  unfold bind at 1. unfold lift at 1.
  destruct (outputs final_output) as [|output rest]; [reflexivity|].
  cbn [list_index0]. unfold bind at 1 2, now at 1, lift at 1.
  cbn [clock_reads add_call].
  destruct (int_of_float _) as [created|e]; reflexivity.
Qed.

(** X7. [create_completion] reads four keys of the JSON body: [prompt],
    [max_tokens], [temperature] and [model]. Two bodies that agree on
    these are answered alike, whatever else they hold: [stream],
    [stop], [top_p] and every other key are ignored. *)
Theorem create_completion_reads_four_keys (rt : Runtime) (g : Globals)
  (request1 request2 : gmap string PyVal) (w : World)
  (Hprompt : request1 !! "prompt" = request2 !! "prompt")
  (Hmax : request1 !! "max_tokens" = request2 !! "max_tokens")
  (Htemperature : request1 !! "temperature" = request2 !! "temperature")
  (Hmodel : request1 !! "model" = request2 !! "model") :
  create_completion rt g request1 w = create_completion rt g request2 w.
Proof.
  unfold create_completion, dict_get.
  now rewrite Hprompt, Hmax, Htemperature, Hmodel.
Qed.

Lemma create_completion_reads_four_keys_witness :
  create_completion example_runtime hello_globals story_request idle_world
  = create_completion example_runtime hello_globals
      {[ "prompt" := PyStr "Once upon a time" ]} idle_world.
Proof.
  apply create_completion_reads_four_keys; reflexivity.
Defined.

(** X8. When [create_completion] answers, the engine was asked once, for
    the value under [prompt] as it came (the empty string when the key
    is missing) with the temperature and the token limit of the body (0.7
    and 100 when missing); the answer carries the text and the finish
    reason of the last request output, the request id that was drawn
    and the model named by the body ([deepseek-coder] when missing);
    and the tokenizer was never called. *)
Theorem create_completion_answer (rt : Runtime) (g : Globals)
  (request : gmap string PyVal) (w w' : World) (answer : TextCompletion)
  (Hok : create_completion rt g request w = (Ok answer, w')) :
  exists (engine : AsyncLLMEngine) (final_output : RequestOutput)
         (output : CompletionOutput),
    let kwargs :=
      {| sp_temperature := default (PyFloat 0.7%float) (request !! "temperature");
         sp_top_p := None;
         sp_max_tokens := default (PyInt 100) (request !! "max_tokens");
         sp_stop := None |} in
    let prompt := default (PyStr "") (request !! "prompt") in
    let request_id := random_uuid rt (uuids_drawn w) in
    llm_engine g = Some engine
    /\ last_output (generate engine prompt kwargs request_id) None = Ok (Some final_output)
    /\ head (outputs final_output) = Some output
    /\ completion_choices answer
       = [ {| text_choice_text := text output;
              text_choice_index := 0;
              text_choice_finish_reason := finish_reason output |} ]
    /\ completion_id answer = request_id
    /\ completion_model answer = default (PyStr "deepseek-coder") (request !! "model")
    /\ calls w'
       = calls w ++ [CallSamplingParams kwargs; CallRandomUuid;
                     CallGenerate prompt kwargs request_id].
Proof.
  destruct (llm_engine g) as [engine|] eqn:Hengine;
    [|unfold create_completion in Hok; rewrite Hengine in Hok; discriminate].
  rewrite (create_completion_paths rt g engine) in Hok by assumption.
  cbv zeta in Hok. unfold completion_failure in Hok.
  destruct (SamplingParams_check _ _) as [e|];
    [destruct (is_Exception e); discriminate|].
  destruct (last_output _ None) as [[final_output|]|e] eqn:Hlast;
    [| simpl in Hok; discriminate | destruct (is_Exception e); discriminate].
  destruct (outputs final_output) as [|output rest] eqn:Hout;
    [simpl in Hok; discriminate|].
  destruct (int_of_float _) as [created|e];
    [|destruct (is_Exception e); discriminate].
  injection Hok as <- <-.
  exists engine, final_output, output. cbv zeta.
  split; [reflexivity|]. split; [exact Hlast|].
  split; [now rewrite Hout|].
  repeat split. simpl. now rewrite <- !app_assoc.
Qed.

Lemma create_completion_answer_witness :
  exists answer : TextCompletion,
    create_completion example_runtime hello_globals story_request idle_world
    = (Ok answer,
       snd (create_completion example_runtime hello_globals story_request idle_world))
    /\ completion_choices answer
       = [ {| text_choice_text := "!";
              text_choice_index := 0;
              text_choice_finish_reason := Some "stop" |} ]
    /\ completion_model answer = PyStr "deepseek-coder".
Proof.
  eexists. split; [vm_compute; reflexivity|].
  destruct (create_completion_answer example_runtime hello_globals story_request
              idle_world _ _ ltac:(vm_compute; reflexivity))
    as (engine & final_output & output & _ & _ & _ & _ & _ & Hmodel & _).
  split; [reflexivity|]. exact Hmodel.
Defined.

Lemma completion_failure_log (rt : Runtime) (e : exn) (w : World) :
  (fst (completion_failure rt e w) = Raise CancelledError
   /\ error_log (snd (completion_failure rt e w)) = error_log w)
  \/ (exists detail,
        fst (completion_failure rt e w) = Raise (HTTPException 500 detail)
        /\ error_log (snd (completion_failure rt e w))
           = error_log w ++ ["文本完成请求失败: " +:+ detail]).
Proof.
  unfold completion_failure. destruct (is_Exception e) eqn:Hexc.
  - right. eexists. split; reflexivity.
  - left. apply not_Exception_is_cancelled in Hexc as ->. split; reflexivity.
Qed.

(** X9. With an engine loaded, a text-completion request that does not
    end with an answer ends with the cancellation of the request, which
    is not logged, or with the 500 error, and then exactly one line with
    the same detail was added to the error log. In particular a failure
    of the engine, and a generation without output, are answered with
    the 500 error. *)
Theorem create_completion_failures (rt : Runtime) (g : Globals)
  (engine : AsyncLLMEngine) (request : gmap string PyVal) (w : World) (e : exn)
  (Hengine : llm_engine g = Some engine)
  (Hraise : fst (create_completion rt g request w) = Raise e) :
  (e = CancelledError
   /\ error_log (snd (create_completion rt g request w)) = error_log w)
  \/ (exists detail,
        e = HTTPException 500 detail
        /\ error_log (snd (create_completion rt g request w))
           = error_log w ++ ["文本完成请求失败: " +:+ detail]).
Proof.
  rewrite (create_completion_paths rt g engine) in Hraise |- * by assumption.
  cbv zeta in Hraise |- *.
  assert (Hfail : forall e0 w0,
            fst (completion_failure rt e0 w0) = Raise e ->
            error_log w0 = error_log w ->
            (e = CancelledError
             /\ error_log (snd (completion_failure rt e0 w0)) = error_log w)
            \/ (exists detail,
                  e = HTTPException 500 detail
                  /\ error_log (snd (completion_failure rt e0 w0))
                     = error_log w ++ ["文本完成请求失败: " +:+ detail])).
  { intros e0 w0 Hfst Hlog.
    destruct (completion_failure_log rt e0 w0) as [[H1 H2] | (detail & H1 & H2)];
      rewrite H1 in Hfst; injection Hfst as <-; rewrite H2, Hlog; eauto. }
  destruct (SamplingParams_check _ _) as [e0|]; [now apply Hfail|].
  destruct (last_output _ None) as [[final_output|]|e0]; try now apply Hfail.
  destruct (outputs final_output) as [|output rest]; [now apply Hfail|].
  destruct (int_of_float _) as [created|e0]; [discriminate|now apply Hfail].
Qed.

Lemma create_completion_failures_witness :
  llm_engine (globals_with (Some silent_engine)) = Some silent_engine
  /\ fst (create_completion example_runtime (globals_with (Some silent_engine))
            story_request idle_world)
     = Raise (HTTPException 500 "500: 推理失败")
  /\ (HTTPException 500 "500: 推理失败" = CancelledError
      /\ error_log (snd (create_completion example_runtime
                           (globals_with (Some silent_engine)) story_request idle_world))
         = error_log idle_world
      \/ exists detail,
           HTTPException 500 "500: 推理失败" = HTTPException 500 detail
           /\ error_log (snd (create_completion example_runtime
                                (globals_with (Some silent_engine)) story_request
                                idle_world))
              = error_log idle_world ++ ["文本完成请求失败: " +:+ detail]).
Proof.
  split; [reflexivity|]. split; [reflexivity|].
  exact (create_completion_failures example_runtime (globals_with (Some silent_engine))
           silent_engine story_request idle_world _ eq_refl eq_refl).
Defined.

(** ** The metrics of the middleware *)

(** The middleware, in closed form. *)
Lemma metrics_middleware_eq {R : Type} (rt : Runtime) (request : HttpRequest)
  (call_next : HttpRequest -> M R) (w : World) :
  metrics_middleware rt request call_next w
  = let entered := set_ACTIVE_REQUESTS Z.succ (tick_clock w) in
    let outcome := fst (call_next request entered) in
    let after := snd (call_next request entered) in
    let counted :=
      match outcome with
      | Ok _ => REQUEST_COUNT_inc (method request) (url_path request) after
      | Raise _ => after
      end in
    (outcome,
     set_ACTIVE_REQUESTS Z.pred
       (REQUEST_DURATION_observe
          (PrimFloat.sub (time_time rt (clock_reads counted))
             (time_time rt (clock_reads w)))
          (tick_clock counted))).
Proof.
  unfold metrics_middleware, bind, try_finally, now, ret. simpl.
  destruct (call_next request _) as [[response|e] w']; reflexivity.
Qed.

(** X10. The middleware counts a request, under its method and path,
    exactly when the downstream handler returned a response: the counter
    of that pair grows by one and no other counter moves; when the
    handler raised, no counter moves. *)
Theorem middleware_counts_responses {R : Type} (rt : Runtime)
  (request : HttpRequest) (call_next : HttpRequest -> M R) (w : World)
  (Hnext : preserves REQUEST_COUNT (call_next request)) :
  let key := (method request, url_path request) in
  let outcome := fst (metrics_middleware rt request call_next w) in
  let counter := REQUEST_COUNT (snd (metrics_middleware rt request call_next w)) in
  (forall response, outcome = Ok response ->
     counter !! key = Some (S (default 0%nat (REQUEST_COUNT w !! key)))
     /\ forall other, other <> key -> counter !! other = REQUEST_COUNT w !! other)
  /\ (forall e, outcome = Raise e -> counter = REQUEST_COUNT w).
Proof.
  intros key outcome counter. unfold outcome, counter.
  rewrite metrics_middleware_eq. cbv zeta. simpl.
  set (entered := set_ACTIVE_REQUESTS Z.succ (tick_clock w)).
  pose proof (Hnext entered) as Hcount. simpl in Hcount.
  destruct (call_next request entered) as [[response|e] after]; simpl in *.
  - split; [|discriminate]. intros _ _. rewrite Hcount. split.
    + apply lookup_insert_eq.
    + intros other Hother. now apply lookup_insert_ne.
  - split; [discriminate|]. intros _ _. exact Hcount.
Qed.

(** X11. On every path, response or exception, the middleware records
    exactly one duration: the clock reading taken in its [finally]
    minus the reading taken when the request came in. *)
Theorem middleware_observes_duration {R : Type} (rt : Runtime)
  (request : HttpRequest) (call_next : HttpRequest -> M R) (w : World)
  (Hnext : preserves REQUEST_DURATION (call_next request)) :
  let entered := set_ACTIVE_REQUESTS Z.succ (tick_clock w) in
  let after := snd (call_next request entered) in
  REQUEST_DURATION (snd (metrics_middleware rt request call_next w))
  = REQUEST_DURATION w
    ++ [PrimFloat.sub (time_time rt (clock_reads after)) (time_time rt (clock_reads w))].
Proof.
  intros entered after.
  rewrite metrics_middleware_eq. cbv zeta. fold entered. fold after. simpl.
  pose proof (Hnext entered) as Hduration. fold after in Hduration.
  simpl in Hduration.
  destruct (fst (call_next request entered)); simpl; now rewrite Hduration.
Qed.

Lemma handlers_keep_count (rt : Runtime) (g : Globals) (request : ChatCompletionRequest) :
  preserves REQUEST_COUNT (create_chat_completion rt g request).
Proof.
  unfold create_chat_completion, new_SamplingParams, generate_chat_completion.
  preserve.
Qed.

Lemma handlers_keep_duration (rt : Runtime) (g : Globals)
  (request : ChatCompletionRequest) :
  preserves REQUEST_DURATION (create_chat_completion rt g request).
Proof.
  unfold create_chat_completion, new_SamplingParams, generate_chat_completion.
  preserve.
Qed.

Lemma middleware_counts_responses_witness :
  let request := {| method := "POST"; url_path := "/v1/chat/completions" |} in
  let served := fun _ : HttpRequest =>
    create_chat_completion example_runtime hello_globals (hello_request false) in
  let failed := fun _ : HttpRequest =>
    create_chat_completion example_runtime (globals_with (Some dead_engine))
      (hello_request false) in
  REQUEST_COUNT (snd (metrics_middleware example_runtime request served idle_world))
    !! ("POST", "/v1/chat/completions") = Some 1%nat
  /\ REQUEST_COUNT (snd (metrics_middleware example_runtime request failed idle_world))
     = REQUEST_COUNT idle_world.
Proof.
  intros request served failed. split.
  - destruct (middleware_counts_responses example_runtime request served idle_world
                (handlers_keep_count _ _ _)) as [Hok _].
    exact (proj1 (Hok (JSONResponse hello_body) ltac:(vm_compute; reflexivity))).
  - destruct (middleware_counts_responses example_runtime request failed idle_world
                (handlers_keep_count _ _ _)) as [_ Hraise].
    exact (Hraise (HTTPException 500 "engine dead") eq_refl).
Defined.

Lemma middleware_observes_duration_witness :
  REQUEST_DURATION
    (snd (metrics_middleware example_runtime
            {| method := "POST"; url_path := "/v1/chat/completions" |}
            (fun _ => create_chat_completion example_runtime
                        (globals_with (Some dead_engine)) (hello_request false))
            idle_world))
  = [0%float].
Proof.
  exact (middleware_observes_duration example_runtime
           {| method := "POST"; url_path := "/v1/chat/completions" |}
           (fun _ => create_chat_completion example_runtime
                       (globals_with (Some dead_engine)) (hello_request false))
           idle_world (handlers_keep_duration _ _ _)).
Defined.

Lemma total_count_comm (k1 k2 : string * string) (n1 n2 total : nat) :
  (n1 + (n2 + total) = n2 + (n1 + total))%nat.
Proof. lia. Qed.

Lemma total_count_inc (key : string * string) (counter : gmap (string * string) nat) :
  total_count (<[key := S (default 0%nat (counter !! key))]> counter)
  = S (total_count counter).
Proof.
  unfold total_count.
  rewrite <- (insert_delete_eq counter).
  rewrite map_fold_insert_L;
    [|intros; apply total_count_comm; assumption|apply lookup_delete_eq].
  destruct (counter !! key) as [n|] eqn:Hkey; simpl.
  - rewrite (map_fold_delete_L _ _ key n counter);
      [lia|intros; apply total_count_comm; assumption|exact Hkey].
  - now rewrite delete_id.
Qed.

(** X12. After any requests served one after the other by handlers that
    leave the metrics alone, whatever their outcomes: the gauge of
    active requests is back at its initial value, one duration has been
    recorded per request, and the request counters have grown by the
    number of responses. *)
Theorem requests_balance_metrics {R : Type} (rt : Runtime)
  (requests : list (HttpRequest * (HttpRequest -> M R))) (w : World)
  (Hhandlers : Forall (fun rc => keeps_gauge (snd rc (fst rc))
                        /\ preserves REQUEST_COUNT (snd rc (fst rc))
                        /\ preserves REQUEST_DURATION (snd rc (fst rc))) requests) :
  let outcomes := fst (run_requests rt requests w) in
  let w' := snd (run_requests rt requests w) in
  length outcomes = length requests
  /\ ACTIVE_REQUESTS w' = ACTIVE_REQUESTS w
  /\ length (REQUEST_DURATION w') = (length (REQUEST_DURATION w) + length requests)%nat
  /\ total_count (REQUEST_COUNT w')
     = (total_count (REQUEST_COUNT w) + responses outcomes)%nat.
Proof.
  revert w.
  induction Hhandlers as [|[request call_next] later (Hgauge & Hcount & Hduration) _ IH];
    intros w; simpl in *.
  - repeat split; lia.
  - destruct (metrics_middleware rt request call_next w) as [outcome w1] eqn:Hmw.
    specialize (IH w1).
    destruct (run_requests rt later w1) as [outcomes w2]. simpl in *.
    destruct IH as (Hlen & Hactive & Hdurations & Htotal).
    pose proof (metrics_middleware_eq rt request call_next w) as Heq.
    rewrite Hmw in Heq. cbv zeta in Heq.
    set (entered := set_ACTIVE_REQUESTS Z.succ (tick_clock w)) in *.
    pose proof (Hgauge entered) as Hg. pose proof (Hcount entered) as Hc.
    pose proof (Hduration entered) as Hd.
    destruct (call_next request entered) as [[response|e] after];
      simpl in *; injection Heq as -> ->; simpl in *.
    + rewrite Hactive, Hg, Hdurations, Hd, Htotal, Hc, total_count_inc.
      rewrite length_app. simpl. repeat split; lia.
    + rewrite Hactive, Hg, Hdurations, Hd, Htotal, Hc.
      rewrite length_app. simpl. repeat split; lia.
Qed.

Lemma requests_balance_metrics_witness :
  length (fst (run_requests example_runtime example_requests idle_world)) = 2%nat
  /\ ACTIVE_REQUESTS (snd (run_requests example_runtime example_requests idle_world)) = 0
  /\ length (REQUEST_DURATION
               (snd (run_requests example_runtime example_requests idle_world)))
     = 2%nat
  /\ total_count (REQUEST_COUNT
                    (snd (run_requests example_runtime example_requests idle_world)))
     = (total_count (REQUEST_COUNT idle_world)
        + responses (fst (run_requests example_runtime example_requests idle_world)))%nat.
Proof.
  apply (requests_balance_metrics example_runtime example_requests idle_world).
  repeat constructor; simpl;
    first [ apply keeps_gauge_create_chat_completion
          | apply handlers_keep_count
          | apply handlers_keep_duration ].
Defined.

(** ** Validation of the configuration, case by case *)

(** X13. [_validate_config] reports the first check that fails, in the
    order master node, tensor parallel size, GPU memory utilization, and
    accepts exactly when none fails. The master node check concerns only
    cluster mode and the node type [worker], and an empty master node
    address counts as a missing one. *)
Theorem validate_config_cases (self : Settings) :
  (_validate_config self = Raise master_node_missing
   <-> cluster_enabled self = true
       /\ (master_node self = None \/ master_node self = Some "")
       /\ node_type self = "worker")
  /\ (_validate_config self = Raise tensor_parallel_invalid
      <-> worker_without_master self = false /\ tensor_parallel_size self < 1)
  /\ (_validate_config self = Raise gpu_memory_invalid
      <-> worker_without_master self = false /\ 1 <= tensor_parallel_size self
          /\ (PrimFloat.leb (gpu_memory_utilization self) 0 = true
              \/ PrimFloat.ltb 1 (gpu_memory_utilization self) = true))
  /\ (_validate_config self = Ok tt
      <-> worker_without_master self = false /\ 1 <= tensor_parallel_size self
          /\ PrimFloat.leb (gpu_memory_utilization self) 0 = false
          /\ PrimFloat.ltb 1 (gpu_memory_utilization self) = false).
Proof.
  assert (Hmaster :
    worker_without_master self = true
    <-> cluster_enabled self = true
        /\ (master_node self = None \/ master_node self = Some "")
        /\ node_type self = "worker").
  { unfold worker_without_master, truthy_opt_str.
    rewrite !andb_true_iff, negb_true_iff, String.eqb_eq.
    destruct (master_node self) as [address|].
    - rewrite negb_false_iff, String.eqb_eq.
      split; [intros [[? ->] ?]; auto|].
      intros (? & [?|[= ->]] & ?); [discriminate|auto].
    - split; [intros [[? _] ?]; auto | intros (? & _ & ?); auto]. }
  unfold _validate_config. fold (worker_without_master self).
  unfold master_node_missing, tensor_parallel_invalid, gpu_memory_invalid.
  destruct (worker_without_master self) eqn:Hworker.
  { split; [|split; [|split]].
    - split; [intros _; now apply Hmaster | reflexivity].
    - split; [discriminate | intros [? _]; discriminate].
    - split; [discriminate | intros [? _]; discriminate].
    - split; [discriminate | intros [? _]; discriminate]. }
  assert (Hno : ~ (cluster_enabled self = true
                   /\ (master_node self = None \/ master_node self = Some "")
                   /\ node_type self = "worker"))
    by (intros H; apply Hmaster in H; discriminate).
  destruct (tensor_parallel_size self <? 1) eqn:Htensor;
    [apply Z.ltb_lt in Htensor | apply Z.ltb_ge in Htensor].
  { split; [|split; [|split]].
    - split; [discriminate | intros H; destruct (Hno H)].
    - split; [auto | reflexivity].
    - split; [discriminate | intros (_ & ? & _); lia].
    - split; [discriminate | intros (_ & ? & _); lia]. }
  destruct (PrimFloat.leb (gpu_memory_utilization self) 0) eqn:Hle; simpl.
  { split; [|split; [|split]].
    - split; [discriminate | intros H; destruct (Hno H)].
    - split; [discriminate | intros [_ ?]; lia].
    - split; [auto | reflexivity].
    - split; [discriminate | intros (_ & _ & ? & _); discriminate]. }
  destruct (PrimFloat.ltb 1 (gpu_memory_utilization self)) eqn:Hgt.
  { split; [|split; [|split]].
    - split; [discriminate | intros H; destruct (Hno H)].
    - split; [discriminate | intros [_ ?]; lia].
    - split; [auto | reflexivity].
    - split; [discriminate | intros (_ & _ & _ & ?); discriminate]. }
  split; [|split; [|split]].
  - split; [discriminate | intros H; destruct (Hno H)].
  - split; [discriminate | intros [_ ?]; lia].
  - split; [discriminate | intros (_ & _ & [?|?]); discriminate].
  - split; [auto | reflexivity].
Qed.

(** ** Construction of the configuration, step by step *)

(** X14. [Settings.__init__] creates the cache directory, the log
    directory and the parent directory of the model path, in this
    order, and validates afterwards. So a configuration that validation
    rejects has had its three directories created all the same; a
    directory that cannot be created is reported whether the
    configuration is valid or not, and the directories after it are not
    attempted; and the construction succeeds exactly when the three
    directories were created and validation accepts. *)
Theorem settings_init_steps (os : OS) (self : Settings) (fs : FS os) :
  (forall fs1 fs2 fs3 e,
      makedirs os (model_cache_dir self) fs = Ok fs1 ->
      makedirs os (log_dir self) fs1 = Ok fs2 ->
      makedirs os (dirname (model_path self)) fs2 = Ok fs3 ->
      _validate_config self = Raise e ->
      Settings_init os self fs = (Raise e, fs3))
  /\ (forall e, makedirs os (model_cache_dir self) fs = Raise e ->
        Settings_init os self fs = (Raise e, fs))
  /\ (forall fs1 e,
        makedirs os (model_cache_dir self) fs = Ok fs1 ->
        makedirs os (log_dir self) fs1 = Raise e ->
        Settings_init os self fs = (Raise e, fs1))
  /\ (forall s fs',
        Settings_init os self fs = (Ok s, fs')
        <-> s = self
            /\ _validate_config self = Ok tt
            /\ exists fs1 fs2,
                 makedirs os (model_cache_dir self) fs = Ok fs1
                 /\ makedirs os (log_dir self) fs1 = Ok fs2
                 /\ makedirs os (dirname (model_path self)) fs2 = Ok fs').
Proof.
  unfold Settings_init, _setup_directories.
  split; [|split; [|split]].
  - intros fs1 fs2 fs3 e -> -> -> ->. reflexivity.
  - intros e ->. reflexivity.
  - intros fs1 e -> ->. reflexivity.
  - intros s fs'. split.
    + destruct (makedirs os (model_cache_dir self) fs) as [fs1|e]; [|discriminate].
      destruct (makedirs os (log_dir self) fs1) as [fs2|e] eqn:Hlog; [|discriminate].
      destruct (makedirs os (dirname (model_path self)) fs2) as [fs3|e] eqn:Hmodel;
        [|discriminate].
      destruct (_validate_config self) as [[]|e]; [|discriminate].
      intros [= <- <-]. split; [reflexivity|]. split; [reflexivity|].
      exists fs1, fs2. auto.
    + intros (-> & -> & fs1 & fs2 & -> & -> & ->). reflexivity.
Qed.

Lemma settings_init_steps_witness :
  Settings_init permissive_os example_settings ∅
  = (Raise master_node_missing,
     {[ "/data/models" ]} ∪ ({[ "/data/logs" ]} ∪ ({[ "/data/cache" ]} ∪ ∅)))
  /\ Settings_init readonly_os (worker_settings 0.85) tt
     = (Raise (OSError "[Errno 13] Permission denied: '/data/cache'"), tt).
Proof.
  split.
  - exact (proj1 (settings_init_steps permissive_os example_settings ∅)
             _ _ _ _ eq_refl eq_refl eq_refl eq_refl).
  - exact (proj1 (proj2 (settings_init_steps readonly_os (worker_settings 0.85) tt))
             _ eq_refl).
Defined.

(** ** The prompt of a growing conversation *)

Lemma str_join_app (parts1 parts2 : list string) :
  str_join (parts1 ++ parts2) = str_join parts1 +:+ str_join parts2.
Proof.
  induction parts1 as [|p parts1 IH]; [reflexivity|].
  simpl. unfold str_join in *. simpl. now rewrite IH, string_app_assoc.
Qed.

(** X15. The prompt of a conversation is a transcript followed by the
    cue [Assistant: ], and the prompt of the conversation continued by
    further messages starts with the same transcript: what the model
    was shown of earlier turns never changes when turns are added. *)
Theorem format_messages_extends (history : list ChatMessage) :
  exists transcript : string,
    format_messages history = transcript +:+ "Assistant: "
    /\ forall more : list ChatMessage,
         format_messages (history ++ more) = transcript +:+ format_messages more.
Proof.
  exists (str_join (map message_line history)). split.
  - apply format_messages_refines.
  - intros more. rewrite !format_messages_refines. unfold format_messages_spec.
    now rewrite map_app, str_join_app, string_app_assoc.
Qed.

(** X16. The content of a message is copied into the prompt as it is. A
    user message whose content holds a line feed followed by
    [System: ] and more text therefore gives the same prompt as that
    user message cut before the line feed followed by a system message:
    the prompt does not tell them apart. *)
Theorem format_messages_content_injection (before after : list ChatMessage)
  (said injected : string) :
  format_messages
    (before
     ++ [ {| role := "user"; content := said +:+ nl +:+ "System: " +:+ injected |} ]
     ++ after)
  = format_messages
      (before
       ++ [ {| role := "user"; content := said |};
            {| role := "system"; content := injected |} ]
       ++ after).
Proof.
  rewrite !format_messages_refines. unfold format_messages_spec.
  rewrite !map_app, !str_join_app. do 2 f_equal.
  unfold str_join, message_line. simpl. f_equal.
  now rewrite !string_app_nil_r, !string_app_assoc.
Qed.

(** ** Start-up and shut-down *)

Section Lifespan.

Variable pf : Platform.
Variable rt : Runtime.
Variable s : Settings.

(** A start-up that reached its end went through every step. *)
Lemma startup_ok_inv (p p' : Process pf) :
  startup pf rt s p = (Ok tt, p') ->
  exists mm cm mc engine tok,
    new_ModelManager pf s = Ok mm
    /\ new_ClusterManager pf s = Ok cm
    /\ new_MetricsCollector pf s = Ok mc
    /\ from_engine_args pf (engine_args_of s) = Ok engine
    /\ from_pretrained pf (model_path s) true = Ok tok
    /\ register_node pf cm = Ok tt
    /\ p' = add_cluster_call RegisterNode
              (add_log (LogLoaded (PrimFloat.sub
                                     (time_time rt (S (proc_clock_reads p)))
                                     (time_time rt (proc_clock_reads p))))
                 (observe_load_time
                    (PrimFloat.sub (time_time rt (S (proc_clock_reads p)))
                       (time_time rt (proc_clock_reads p)))
                    (proc_tick
                       (set_tokenizer tok
                          (set_llm_engine engine
                             (add_log LogLoading
                                (proc_tick
                                   (set_metrics_collector mc
                                      (set_cluster_manager cm
                                         (set_model_manager mm p)))))))))).
Proof.
  unfold startup, lbind, lstep, lupdate, proc_now.
  destruct (new_ModelManager pf s) as [mm|e]; [|discriminate].
  destruct (new_ClusterManager pf s) as [cm|e]; [|discriminate].
  destruct (new_MetricsCollector pf s) as [mc|e]; [|discriminate].
  destruct (from_engine_args pf (engine_args_of s)) as [engine|e]; [|discriminate].
  destruct (from_pretrained pf (model_path s) true) as [tok|e]; [|discriminate].
  destruct (register_node pf cm) as [[]|e] eqn:Hregister; [|discriminate].
  intros [= <-]. exists mm, cm, mc, engine, tok. repeat split. exact Hregister.
Qed.

(** X17. When the start-up of [lifespan] reaches its [yield], every
    global is set: the three managers, the engine and the tokenizer. The
    handlers that then run see a loaded engine: the health check
    reports [healthy], no chat completion is refused with the 503
    error, and the tokenizer the usage count needs is there. One load
    time was recorded and the node was registered once. *)
Theorem startup_makes_ready (p p' : Process pf)
  (Hstarted : startup pf rt s p = (Ok tt, p')) :
  (exists mm cm mc engine tok,
      proc_model_manager p' = Some mm
      /\ proc_cluster_manager p' = Some cm
      /\ proc_metrics_collector p' = Some mc
      /\ proc_llm_engine p' = Some engine
      /\ proc_tokenizer p' = Some tok)
  /\ cluster_calls p' = cluster_calls p ++ [RegisterNode]
  /\ length (MODEL_LOAD_TIME p') = S (length (MODEL_LOAD_TIME p))
  /\ (forall w, exists h,
        fst (health_check rt (globals_of s p') w) = Ok h
        /\ health_status h = "healthy" /\ health_model_loaded h = true)
  /\ (forall request w detail,
        fst (create_chat_completion rt (globals_of s p') request w)
        <> Raise (HTTPException 503 detail)).
Proof.
  destruct (startup_ok_inv _ _ Hstarted)
    as (mm & cm & mc & engine & tok & _ & _ & _ & _ & _ & _ & ->).
  split; [exists mm, cm, mc, engine, tok; repeat split|].
  split; [reflexivity|].
  split; [simpl; rewrite length_app; simpl; lia|].
  split.
  - intros w. eexists. split; [reflexivity|]. split; reflexivity.
  - intros request w detail Hraise.
    match type of Hraise with
    | context [create_chat_completion rt ?g _ _] =>
      destruct (create_chat_completion_raises rt g engine request w _ eq_refl Hraise)
        as [[d Hd] | Hexc]; discriminate
    end.
Qed.

(** The state in which [lifespan] reaches its [finally], from a fresh
    process: the cluster manager is set exactly when its constructor was
    reached and succeeded, and the node was registered exactly when the
    tokenizer was loaded. *)
Lemma before_shutdown (at_yield : result unit) :
  let p0 := add_log LogStarting (fresh_process pf) in
  let p1 := snd ((let+ _ := startup pf rt s in lstep at_yield) p0) in
  match proc_cluster_manager p1, proc_tokenizer p1 with
  | None, Some _ => False
  | None, None => cluster_calls p1 = []
  | Some _, None => cluster_calls p1 = []
  | Some _, Some _ => cluster_calls p1 = [RegisterNode]
  end.
Proof.
  unfold startup, lbind, lstep, lupdate, proc_now. simpl.
  destruct (new_ModelManager pf s) as [mm|e]; [|reflexivity].
  destruct (new_ClusterManager pf s) as [cm|e]; [|reflexivity].
  destruct (new_MetricsCollector pf s) as [mc|e]; [|reflexivity].
  destruct (from_engine_args pf (engine_args_of s)) as [engine|e]; [|reflexivity].
  destruct (from_pretrained pf (model_path s) true) as [tok|e]; [|reflexivity].
  destruct (register_node pf cm) as [[]|e]; [|reflexivity].
  destruct at_yield; reflexivity.
Qed.

(** X18. In a run of [lifespan] from a fresh process, however it ends:
    [unregister_node] is called exactly once if the cluster manager was
    created, also when the start-up failed before the node was
    registered, and not at all otherwise; [register_node] is called only
    once engine and tokenizer are loaded, and is then always followed by
    [unregister_node]. *)
Theorem lifespan_unregisters (at_yield : result unit) :
  let p' := snd (lifespan pf rt s at_yield (fresh_process pf)) in
  match proc_cluster_manager p', proc_tokenizer p' with
  | None, _ => cluster_calls p' = []
  | Some _, None => cluster_calls p' = [UnregisterNode]
  | Some _, Some _ => cluster_calls p' = [RegisterNode; UnregisterNode]
  end.
Proof.
  pose proof (before_shutdown at_yield) as Hbefore. cbv zeta in Hbefore.
  unfold lifespan.
  destruct ((let+ _ := startup pf rt s in lstep at_yield)
              (add_log LogStarting (fresh_process pf))) as [r p1].
  simpl in Hbefore.
  assert (Hshutdown : forall (r2 : result unit) (p2 : Process pf),
            proc_cluster_manager p2 = proc_cluster_manager p1 ->
            proc_tokenizer p2 = proc_tokenizer p1 ->
            cluster_calls p2 = cluster_calls p1 ->
            let p' := snd (match shutdown pf p2 with
                           | (Ok _, p3) => (r2, p3)
                           | (Raise e, p3) => (Raise e, p3)
                           end) in
            match proc_cluster_manager p', proc_tokenizer p' with
            | None, _ => cluster_calls p' = []
            | Some _, None => cluster_calls p' = [UnregisterNode]
            | Some _, Some _ => cluster_calls p' = [RegisterNode; UnregisterNode]
            end).
  { intros r2 p2 Hcm Htok Hcalls. unfold shutdown, lbind, lupdate. simpl.
    rewrite Hcm.
    destruct (proc_cluster_manager p1) as [cm|].
    - destruct (unregister_node pf cm) as [[]|e]; simpl; rewrite Hcm, Htok, Hcalls;
        destruct (proc_tokenizer p1); now rewrite Hbefore.
    - simpl. rewrite Hcm, Hcalls.
      destruct (proc_tokenizer p1); [destruct Hbefore | exact Hbefore]. }
  destruct r as [[]|e]; [now apply Hshutdown|].
  destruct (is_Exception e); now apply Hshutdown.
Qed.

End Lifespan.

Lemma startup_makes_ready_witness :
  let p' := snd (startup example_platform example_runtime example_settings
                   (fresh_process example_platform)) in
  proc_llm_engine p' = Some hello_engine
  /\ proc_tokenizer p' = Some byte_tokenizer
  /\ cluster_calls p' = [RegisterNode]
  /\ length (MODEL_LOAD_TIME p') = 1%nat.
Proof.
  intros p'.
  destruct (startup_makes_ready example_platform example_runtime example_settings
              (fresh_process example_platform) p' eq_refl)
    as (_ & Hcalls & Hload & _).
  split; [reflexivity|]. split; [reflexivity|].
  split; [exact Hcalls | exact Hload].
Defined.

Example failed_startup_unregisters :
  cluster_calls (snd (lifespan engineless_platform example_runtime example_settings
                        (Ok tt) (fresh_process engineless_platform)))
  = [UnregisterNode]
  /\ fst (lifespan engineless_platform example_runtime example_settings
            (Ok tt) (fresh_process engineless_platform))
     = Raise (RuntimeError "CUDA out of memory").
Proof. split; reflexivity. Qed.

(** X19. When the [try] of [lifespan] ends with an [Exception], raised
    by a start-up step or thrown in at the [yield] while the
    application was serving, the last two lines of the log are the
    start-up failure with [str] of the exception and the shutdown
    line; the exception is raised again, unless [unregister_node] fails
    in the [finally], in which case its exception is raised instead. *)
Theorem lifespan_failure (pf : Platform) (rt : Runtime) (s : Settings)
  (at_yield : result unit) (p p1 : Process pf) (e : exn)
  (Hfailed : (let+ _ := startup pf rt s in lstep at_yield) (add_log LogStarting p)
             = (Raise e, p1))
  (Hexc : is_Exception e = true) :
  let outcome := fst (lifespan pf rt s at_yield p) in
  let p' := snd (lifespan pf rt s at_yield p) in
  proc_log p' = proc_log p1 ++ [LogStartupFailed (str_exn rt e); LogClosing]
  /\ (outcome = Raise e
      \/ exists cm e', proc_cluster_manager p1 = Some cm
                       /\ unregister_node pf cm = Raise e' /\ outcome = Raise e').
Proof.
  unfold lifespan. rewrite Hfailed, Hexc.
  unfold shutdown, lbind, lupdate. simpl.
  destruct (proc_cluster_manager p1) as [cm|]; simpl.
  - destruct (unregister_node pf cm) as [[]|e'] eqn:Hunregister; simpl.
    + split; [now rewrite <- app_assoc | auto].
    + split; [now rewrite <- app_assoc | right; eauto].
  - split; [now rewrite <- app_assoc | auto].
Qed.

Lemma lifespan_failure_witness :
  proc_log (snd (lifespan example_platform example_runtime example_settings
                   (Raise (RuntimeError "worker lost"))
                   (fresh_process example_platform)))
  = [ LogStarting; LogLoading; LogLoaded 0%float;
      LogStartupFailed "worker lost"; LogClosing ]
  /\ fst (lifespan example_platform example_runtime example_settings
            (Raise (RuntimeError "worker lost")) (fresh_process example_platform))
     = Raise (RuntimeError "worker lost").
Proof.
  destruct (lifespan_failure example_platform example_runtime example_settings
              (Raise (RuntimeError "worker lost")) (fresh_process example_platform)
              _ (RuntimeError "worker lost") eq_refl eq_refl) as [Hlog _].
  split; [exact Hlog | reflexivity].
Defined.

Lemma chunk_event_inj_witness :
  chunk_event "req-0" 1700000000 "deepseek-coder"
    {| text := "line 1" +:+ nl +:+ "line 2"; finish_reason := None |}
  = chunk_event "req-0" 1700000000 "deepseek-coder"
      {| text := "line 1" +:+ nl +:+ "line 2"; finish_reason := None |}
  /\ {| text := "line 1" +:+ nl +:+ "line 2"; finish_reason := None |}
     = {| text := "line 1" +:+ nl +:+ "line 2"; finish_reason := None |}.
Proof.
  split; [reflexivity|].
  apply (chunk_event_inj "req-0" "deepseek-coder" 1700000000). reflexivity.
Defined.

Lemma stream_delivers_until_failure_witness :
  fst (stream_chat_completion example_runtime (globals_with (Some flaky_engine))
         "User: Say hello" (chat_kwargs (hello_request true)) "req-0" "deepseek-coder"
         idle_world)
  = {| yielded :=
         [ chunk_event "req-0" 1700000000 "deepseek-coder"
             {| text := "Hel"; finish_reason := None |};
           chunk_event "req-0" 1700000000 "deepseek-coder"
             {| text := "lo"; finish_reason := None |} ];
       raised := Some (RuntimeError "engine dead") |}.
Proof.
  exact (stream_delivers_until_failure example_runtime (globals_with (Some flaky_engine))
           flaky_engine "User: Say hello" (chat_kwargs (hello_request true))
           "req-0" "deepseek-coder" idle_world
           [ {| text := "Hel"; finish_reason := None |};
             {| text := "lo"; finish_reason := None |} ]
           (RuntimeError "engine dead") 1700000000 eq_refl eq_refl eq_refl).
Defined.
